(** * Pipeline deploy actions: permission scoping, naming and ordering

    A shallow embedding of
    [source/lib/blueprints/byom/pipeline_definitions/deploy_actions.py]
    and the properties stated about it.

    Python values are modelled as follows: [str] as [string], unbounded
    [int] as [Z], [bytes] as [list byte], a [dict] with string keys as
    [gmap string _], a [set] of strings as [gset string], and the
    operating system's entropy pool as an explicit [World] that is threaded
    through the one factory that draws from it.  A number handed to the
    construct library is held there as an IEEE double; what is stated
    about such a number is stated for the integers a double holds as
    they are ([exact_number]). *)

From Stdlib Require Import ZArith String Ascii List Lia.
From Stdlib.Strings Require Import Byte.
From stdpp Require Import base strings gmap list.

Local Open Scope string_scope.

(** ** Python strings *)

Module PyStr.

(** [s[a:b]] for [0 <= a <= b]; shorter when [s] runs out, as in Python. *)
Definition slice (a b : nat) (s : string) : string :=
  String.substring a (b - a) s.

(** [s[a:]] *)
Definition slice_from (a : nat) (s : string) : string :=
  String.substring a (String.length s - a) s.

Fixpoint all_chars (p : ascii -> bool) (s : string) : bool :=
  match s with
  | EmptyString => true
  | String c s' => p c && all_chars p s'
  end.

(** One of [0-9a-f]. *)
Definition is_lower_hex (c : ascii) : bool :=
  let n := nat_of_ascii c in
  ((48 <=? n)%nat && (n <=? 57)%nat) || ((97 <=? n)%nat && (n <=? 102)%nat).

(** The digit one of [0-9a-f] stands for. *)
Definition hex_value (c : ascii) : option Z :=
  let n := nat_of_ascii c in
  if ((48 <=? n)%nat && (n <=? 57)%nat)%bool then Some (Z.of_nat n - 48)%Z
  else if ((97 <=? n)%nat && (n <=? 102)%nat)%bool then Some (Z.of_nat n - 87)%Z
  else None.

(** The number a string of digits [0-9a-f] denotes in base 16, most
    significant digit first, continuing from [acc]. *)
Fixpoint of_hex_from (acc : Z) (s : string) : option Z :=
  match s with
  | EmptyString => Some acc
  | String c s' =>
      match hex_value c with
      | Some d => of_hex_from (16 * acc + d)%Z s'
      | None => None
      end
  end.

Definition of_hex (s : string) : option Z := of_hex_from 0 s.

End PyStr.

(** ** The [uuid] module of the Python standard library

    [uuid.uuid4()] is [UUID(bytes=os.urandom(16), version=4)]; the
    constructor reads the bytes big-endian, overwrites the variant and
    version bits, and [str] prints the 128-bit value as 32 lowercase
    hexadecimal digits grouped 8-4-4-4-12. *)

Module Uuid.

Local Open Scope Z_scope.

(** The entropy pool: an unbounded supply of bytes and a read position. *)
Record World := { entropy : nat -> byte; cursor : nat }.

(** [os.urandom(n)] *)
Definition urandom (n : nat) (w : World) : list byte * World :=
  (List.map (fun i => entropy w (cursor w + i)%nat) (seq 0 n),
   {| entropy := entropy w; cursor := (cursor w + n)%nat |}).

(** [int.from_bytes(bs, byteorder='big')] *)
Definition int_from_bytes (bs : list byte) : Z :=
  fold_left (fun acc b => acc * 256 + Z.of_N (Byte.to_N b)) bs 0.

(** [UUID.__init__(bytes=bs, version=version)] *)
Definition UUID (bs : list byte) (version : Z) : Z :=
  let int := int_from_bytes bs in
  (* Set the variant to RFC 4122. *)
  let int := Z.land int (Z.lnot (Z.shiftl 0xc000 48)) in
  let int := Z.lor int (Z.shiftl 0x8000 48) in
  (* Set the version number. *)
  let int := Z.land int (Z.lnot (Z.shiftl 0xf000 64)) in
  Z.lor int (Z.shiftl version 76).

Definition uuid4 (w : World) : Z * World :=
  let '(bs, w') := urandom 16 w in (UUID bs 4, w').

Definition hex_digit (d : Z) : ascii :=
  match d with
  | 0 => "0" | 1 => "1" | 2 => "2" | 3 => "3" | 4 => "4" | 5 => "5"
  | 6 => "6" | 7 => "7" | 8 => "8" | 9 => "9" | 10 => "a" | 11 => "b"
  | 12 => "c" | 13 => "d" | 14 => "e" | _ => "f"
  end%char.

(** ['%0nx' % v] for [0 <= v < 16^n]: exactly [n] digits, most
    significant first. *)
Fixpoint hex_digits (n : nat) (v : Z) : string :=
  match n with
  | O => ""
  | S k => hex_digits k (v / 16) +:+ String (hex_digit (v mod 16)) ""
  end.

(** [UUID.__str__] *)
Definition str (u : Z) : string :=
  let hex := hex_digits 32 u in
  PyStr.slice 0 8 hex +:+ "-" +:+ PyStr.slice 8 12 hex +:+ "-" +:+
  PyStr.slice 12 16 hex +:+ "-" +:+ PyStr.slice 16 20 hex +:+ "-" +:+
  PyStr.slice_from 20 hex.

End Uuid.

(** ** Errors and the exception monad *)

(** The error taxonomy of the specification. *)
Inductive error :=
| InvalidCategory
| EmptyResourceSet
| DuplicateRoleName
| DuplicateStageName
| InvalidRunOrder
| InvalidTimeout
| NameGenerationExhausted
| DependencyOrderViolation (stage artifact : string).

(** A call either returns a value or raises. *)
Inductive result (A : Type) :=
| Ok (a : A)
| Raise (e : error).
Arguments Ok {A} a.
Arguments Raise {A} e.

#[global] Instance result_ret : MRet result := @Ok.
#[global] Instance result_bind : MBind result := fun A B f m =>
  match m with
  | Ok a => f a
  | Raise e => Raise e
  end.

(** ** The construct library: IAM, Lambda, CodePipeline

    Only the attributes the factories set are recorded, and with them
    the output of a CloudFormation action, which no factory sets.  The
    construct
    [scope] every factory receives is the tree the constructs are hung
    into; no factory reads it back, so it is left out.  Metadata
    suppressions ([suppress_lambda_policies], [suppress_pipeline_policy])
    annotate the synthesised template and are left out as well. *)

(** [iam.PolicyStatement(actions=..., resources=...)] *)
Record PolicyStatement := {
  actions : list string;
  resources : list string
}.

#[global] Instance PolicyStatement_eq_dec : EqDecision PolicyStatement.
Proof. solve_decision. Defined.

(** A [CfnCondition], known by its logical id. *)
Definition CfnCondition := string.

(** [iam.Policy]: a policy document, a resource of its own; [condition]
    is the condition its resource carries, if any. *)
Record Policy := {
  policy_id : string;
  statements : list PolicyStatement;
  condition : option CfnCondition
}.

(** [iam.Role]: [inline] collects what [add_to_policy] received,
    [attached] what [Policy.attach_to_role] received, oldest first. *)
Record Role := {
  role_id : string;
  assumed_by : string;
  description : string;
  inline : list PolicyStatement;
  attached : list Policy
}.

(** The [role_arn] attribute: a token naming the role. *)
Definition role_arn (r : Role) : string := "${" +:+ role_id r +:+ ".Arn}".

Definition add_to_policy (r : Role) (st : PolicyStatement) : Role :=
  {| role_id := role_id r; assumed_by := assumed_by r;
     description := description r;
     inline := inline r ++ [st]; attached := attached r |}.

Definition attach_to_role (p : Policy) (r : Role) : Role :=
  {| role_id := role_id r; assumed_by := assumed_by r;
     description := description r;
     inline := inline r; attached := attached r ++ [p] |}.

Record Bucket := { bucket_name : string }.

(** [lambda_.Code.from_bucket(bucket, key)] *)
Record Code := { code_bucket : Bucket; code_key : string }.
Definition from_bucket (b : Bucket) (key : string) : Code :=
  {| code_bucket := b; code_key := key |}.

Record LayerVersion := {
  layer_id : string;
  layer_code : Code;
  compatible_runtimes : list string
}.

Definition PYTHON_3_8 : string := "python3.8".

(** [lambda_.Function]; [timeout] in minutes, [None] when not given. *)
Record Function := {
  function_id : string;
  runtime : string;
  handler : string;
  layers : list LayerVersion;
  role : Role;
  code : Code;
  environment : gmap string string;
  timeout : option Z
}.

(** The [function_arn] attribute: a token naming the function. *)
Definition function_arn (f : Function) : string :=
  "${" +:+ function_id f +:+ ".Arn}".

(** [codepipeline.Artifact]: an artifact is known by its name and does
    not record the action that writes it. *)
Record Artifact := { artifact_name : string }.

(** [artifact.at_path(file)] *)
Record ArtifactPath := { artifact : Artifact; file_name : string }.
Definition at_path (a : Artifact) (f : string) : ArtifactPath :=
  {| artifact := a; file_name := f |}.

(** Values of the dictionaries handed to an invoked function. *)
Inductive PyValue :=
| VStr (s : string)
| VList (l : list string)
| VBool (b : bool)
| VInt (z : Z).

(** The integers an IEEE double holds as they are: those of magnitude
    at most [2^53].  A larger one can come back from the construct
    library rounded ([2^53 + 1] as [2^53]). *)
Definition exact_number (z : Z) : bool := (Z.abs z <=? 2 ^ 53)%Z.

(** A value the construct library keeps as it is handed in. *)
Definition exact_value (v : PyValue) : bool :=
  match v with
  | VInt z => exact_number z
  | _ => true
  end.

(** [codepipeline_actions.LambdaInvokeAction] *)
Record LambdaInvokeAction := {
  lia_action_name : string;
  lia_inputs : list Artifact;
  lia_variables_namespace : string;
  lia_lambda : Function;
  lia_user_parameters : gmap string PyValue;
  lia_run_order : Z
}.

(** [codepipeline_actions.CloudFormationCreateUpdateStackAction];
    [cfn_output_file_name] and [cfn_output] are its optional
    [output_file_name] and [output], through which alone such an action
    names an artifact it writes. *)
Record CloudFormationCreateUpdateStackAction := {
  cfn_action_name : string;
  cfn_stack_name : string;
  cfn_capabilities : list string;
  cfn_template_path : ArtifactPath;
  cfn_admin_permissions : bool;
  cfn_template_configuration : ArtifactPath;
  cfn_variables_namespace : string;
  cfn_replace_on_failure : bool;
  cfn_run_order : Z;
  cfn_output_file_name : option string;
  cfn_output : option Artifact
}.

(** [core.CustomResource], with the arguments it was built from;
    [resource_properties] below is what it declares. *)
Record CustomResource := {
  cr_id : string;
  cr_service_token : string;
  cr_properties : gmap string PyValue;
  cr_resource_type : string
}.

(** [{k1: v1, ..., kn: vn}]: entries are stored left to right, so a
    later entry for the same key replaces an earlier one. *)
Definition dict_literal {V : Type} (entries : list (string * V)) : gmap string V :=
  fold_left (fun m kv => <[kv.1 := kv.2]> m) entries ∅.

(** [{**base, **extra}]: [extra] is stored after [base] and wins. *)
Definition dict_update {V : Type} (base extra : gmap string V) : gmap string V :=
  extra ∪ base.

(** The properties [core.CustomResource] declares for its resource:
    [{"ServiceToken": service_token, **properties}].  A [ServiceToken]
    among the properties handed in replaces the one given as
    [service_token]. *)
Definition resource_properties (r : CustomResource) : gmap string PyValue :=
  dict_update (dict_literal [("ServiceToken", VStr (cr_service_token r))])
    (cr_properties r).

(** [list(set(l))]: the distinct elements of [l], in the order the set
    happens to enumerate them. *)
Definition list_set (l : list string) : list string :=
  elements (list_to_set l : gset string).

(** ** Collaborators that are not part of the sources

    [iam_policies.py], [helpers.py] and [conditional_resource.py] of the
    repository are imported by the module but absent; what the
    specification says about them is modelled here. *)

Module IamPolicies.

(** Modelled from the spec: iam_policies.py is absent; the fixed
    enumeration of operation categories of section 4.1. *)
Inductive Category :=
| StorageRead
| StorageWrite
| ComputeBaselineJob
| ComputeBatchTransform
| StackManagement
| KeyManagement.

#[global] Instance Category_eq_dec : EqDecision Category.
Proof. solve_decision. Defined.

(** Modelled from the spec: iam_policies.py is absent; the category
    names of section 4.1, anything else being unrecognized. *)
Definition parse_category (name : string) : option Category :=
  if String.eqb name "storage-read" then Some StorageRead
  else if String.eqb name "storage-write" then Some StorageWrite
  else if String.eqb name "compute-baseline-job" then Some ComputeBaselineJob
  else if String.eqb name "compute-batch-transform" then Some ComputeBatchTransform
  else if String.eqb name "stack-management" then Some StackManagement
  else if String.eqb name "key-management" then Some KeyManagement
  else None.

(** Modelled from the spec: iam_policies.py is absent; "categories and
    their fixed action sets" of section 4.1. *)
Definition category_actions (c : Category) : list string :=
  match c with
  | StorageRead => ["get-object"; "list-bucket"]
  | StorageWrite => ["put-object"]
  | ComputeBaselineJob =>
      ["create-processing-job"; "describe-processing-job";
       "stop-processing-job"; "list-processing-jobs"]
  | ComputeBatchTransform =>
      ["create-transform-job"; "describe-transform-job";
       "stop-transform-job"; "describe-model"; "describe-endpoint"]
  | StackManagement =>
      ["create-stack-set"; "update-stack-set"; "delete-stack-set";
       "describe-stack-set"; "describe-stack-set-operation"]
  | KeyManagement =>
      ["encrypt"; "decrypt"; "generate-data-key"; "describe-key"]
  end.

(** Modelled from the spec: iam_policies.py is absent; the contract
    [buildPolicy(category, resourceIdentifiers)] of section 4.1:
    [InvalidCategory] for an unrecognized category, [EmptyResourceSet]
    for no identifier, otherwise the category's actions over the
    identifiers with duplicates removed.  The exemption of
    key-management is on the caller's side (the caller skips the call
    when no key is configured); the builder itself returns no statement
    without resources for any category. *)
Definition buildPolicy (category : string) (resourceIdentifiers : list string)
  : result PolicyStatement :=
  match parse_category category with
  | None => Raise InvalidCategory
  | Some c =>
      match resourceIdentifiers with
      | [] => Raise EmptyResourceSet
      | _ :: _ =>
          Ok {| actions := category_actions c;
                resources := remove_dups resourceIdentifiers |}
      end
  end.

(** Modelled from the spec: iam_policies.py is absent; the storage-read
    builder. *)
Definition s3_policy_read (resources_list : list string) : result PolicyStatement :=
  buildPolicy "storage-read" resources_list.

(** Modelled from the spec: iam_policies.py is absent; the
    storage-write builder. *)
Definition s3_policy_write (resources_list : list string) : result PolicyStatement :=
  buildPolicy "storage-write" resources_list.

(** Modelled from the spec: iam_policies.py is absent; the
    key-management statement over the supplied key identifier, as a
    policy document of its own. *)
Definition kms_policy_document (id kms_key_arn : string) : result Policy :=
  st ← buildPolicy "key-management" [kms_key_arn];
  mret {| policy_id := id; statements := [st]; condition := None |}.

(** Modelled from the spec: iam_policies.py is absent; a role bound to
    its trusted principal, without statements yet. *)
Definition create_service_role (id principal description : string) : Role :=
  {| role_id := id; assumed_by := principal; description := description;
     inline := []; attached := [] |}.

End IamPolicies.

Module ConditionalResource.

(** Modelled from the spec: conditional_resource.py is absent; the
    aspect pairs the policy with the feature flag. *)
Definition ConditionalResources (c : CfnCondition) (p : Policy) : Policy :=
  {| policy_id := policy_id p; statements := statements p;
     condition := Some c |}.

Definition active (flags : CfnCondition -> bool) (p : Policy) : bool :=
  match condition p with
  | None => true
  | Some c => flags c
  end.

(** Modelled from the spec: conditional_resource.py is absent;
    "conditional statements attach only when their paired FeatureFlag
    evaluates true", flags being resolved once by [flags]: the role's
    own statements, then those of each attached policy whose condition
    holds. *)
Definition materialize (flags : CfnCondition -> bool) (r : Role)
  : list PolicyStatement :=
  inline r ++ List.flat_map statements (List.filter (active flags) (attached r)).

End ConditionalResource.

(** ** The factories of [deploy_actions.py] *)

Section DeployActions.

Import IamPolicies ConditionalResource.

(** What the absent [iam_policies.py] and [helpers.py] compute and the
    specification leaves open (logging is out of its scope, resource
    name patterns are not given) is a parameter of the development. *)
Variable batch_transform_policy : PolicyStatement.
Variable processing_job_arn : string -> string.
Variable cloudformation_stackset_policy : string -> PolicyStatement.
Variable cloudformation_stackset_instances_policy : string -> PolicyStatement.
Variable logs_statements : list PolicyStatement.
Variable logs_metrics_statements : list PolicyStatement.

(** Modelled from the spec: iam_policies.py is absent; the
    compute-baseline-job statement for the named job. *)
Definition sagemaker_baseline_job_policy (baseline_job_name : string)
  : result PolicyStatement :=
  buildPolicy "compute-baseline-job" [processing_job_arn baseline_job_name].

(** Modelled from the spec: iam_policies.py is absent; the logging and
    metrics statements as a policy document of its own. *)
Definition sagemaker_logs_metrics_policy_document (id : string) : Policy :=
  {| policy_id := id; statements := logs_metrics_statements;
     condition := None |}.

(** Modelled from the spec: helpers.py is absent; the logging
    statements are added to the role's own. *)
Definition add_logs_policy (r : Role) : Role :=
  fold_left add_to_policy logs_statements r.

Definition lambda_service : string := "lambda.amazonaws.com".
Definition lambda_handler : string := "main.handler".

Definition sagemaker_layer (blueprint_bucket : Bucket) : LayerVersion :=
  {| layer_id := "sagemakerlayer";
     layer_code := from_bucket blueprint_bucket
                     "blueprints/byom/lambdas/sagemaker_layer.zip";
     compatible_runtimes := [PYTHON_3_8] |}.

Definition batch_transform
    (id : string) (blueprint_bucket assets_bucket : Bucket)
    (model_name inference_instance batch_input_bucket batch_inference_data
     batch_job_output_location kms_key_arn : string)
    (sm_layer : LayerVersion) : result Function :=
  s3_read ← s3_policy_read
    (list_set
       ["arn:aws:s3:::" +:+ bucket_name assets_bucket;
        "arn:aws:s3:::" +:+ bucket_name assets_bucket +:+ "/*";
        "arn:aws:s3:::" +:+ batch_input_bucket;
        "arn:aws:s3:::" +:+ batch_inference_data]);
  s3_write ← s3_policy_write
    ["arn:aws:s3:::" +:+ batch_job_output_location +:+ "/*"];
  let batch_transform_permissions := batch_transform_policy in
  let lambda_role :=
    create_service_role "batch_transform_lambda_role" "lambda.amazonaws.com"
      ("Role that creates a lambda function assumes to create a sagemaker batch transform "
       +:+ "job in the aws mlops pipeline.") in
  let lambda_role := add_to_policy lambda_role batch_transform_permissions in
  let lambda_role := add_to_policy lambda_role s3_read in
  let lambda_role := add_to_policy lambda_role s3_write in
  let lambda_role := add_logs_policy lambda_role in
  mret {| function_id := id;
          runtime := PYTHON_3_8;
          handler := "main.handler";
          layers := [sm_layer];
          role := lambda_role;
          code := from_bucket blueprint_bucket
                    "blueprints/byom/lambdas/batch_transform.zip";
          environment := dict_literal
            [("model_name", model_name);
             ("inference_instance", inference_instance);
             ("assets_bucket", bucket_name assets_bucket);
             ("batch_inference_data", batch_inference_data);
             ("batch_job_output_location", batch_job_output_location);
             ("kms_key_arn", kms_key_arn);
             ("LOG_LEVEL", "INFO")];
          timeout := None |}.

(** Lines 184-234 of [create_data_baseline_job]: the role the
    processing job runs under and the role of the function that starts
    it, as they are hung into the scope. *)
Definition create_data_baseline_job_roles
    (assets_bucket : Bucket)
    (baseline_job_name training_data_location baseline_job_output_location
     kms_key_arn : string)
    (kms_key_arn_provided_condition : CfnCondition) : result (Role * Role) :=
  s3_read ← s3_policy_read
    ["arn:aws:s3:::" +:+ bucket_name assets_bucket;
     "arn:aws:s3:::" +:+ bucket_name assets_bucket +:+ "/" +:+ training_data_location];
  s3_write ← s3_policy_write
    ["arn:aws:s3:::" +:+ baseline_job_output_location +:+ "/*"];
  create_baseline_job_policy ← sagemaker_baseline_job_policy baseline_job_name;
  let sagemaker_logs_policy :=
    sagemaker_logs_metrics_policy_document "BaselineLogsMetrcis" in
  (* Kms Key permissions *)
  kms_policy ← kms_policy_document "BaselineKmsPolicy" kms_key_arn;
  (* add conditions to KMS and ECR policies *)
  let kms_policy := ConditionalResources kms_key_arn_provided_condition kms_policy in
  (* create sagemaker role *)
  let sagemaker_role :=
    create_service_role "create_baseline_sagemaker_role" "sagemaker.amazonaws.com"
      "Role that is create sagemaker model Lambda function assumes to create a baseline job." in
  (* attach the conditional policies *)
  let sagemaker_role := attach_to_role kms_policy sagemaker_role in
  (* create a trust relation to assume the Role *)
  let sagemaker_role :=
    add_to_policy sagemaker_role
      {| actions := ["sts:AssumeRole"]; resources := [role_arn sagemaker_role] |} in
  (* creating a role so that this lambda can create a baseline job *)
  let lambda_role :=
    create_service_role "create_baseline_job_lambda_role" lambda_service
      "Role that is create_data_baseline_job Lambda function assumes to create a baseline job in the pipeline." in
  let sagemaker_role := attach_to_role sagemaker_logs_policy sagemaker_role in
  let sagemaker_role := add_to_policy sagemaker_role create_baseline_job_policy in
  let sagemaker_role := add_to_policy sagemaker_role s3_read in
  let sagemaker_role := add_to_policy sagemaker_role s3_write in
  let lambda_role :=
    add_to_policy lambda_role
      {| actions := ["iam:PassRole"]; resources := [role_arn sagemaker_role] |} in
  let lambda_role := add_to_policy lambda_role create_baseline_job_policy in
  let lambda_role := add_to_policy lambda_role s3_write in
  let lambda_role := add_to_policy lambda_role s3_read in
  let lambda_role := add_logs_policy lambda_role in
  mret (sagemaker_role, lambda_role).

Definition create_data_baseline_job
    (blueprint_bucket assets_bucket : Bucket)
    (baseline_job_name training_data_location baseline_job_output_location
     endpoint_name instance_type instance_volume_size max_runtime_seconds
     kms_key_arn : string)
    (kms_key_arn_provided_condition : CfnCondition)
    (stack_name : string) : result Function :=
  '(sagemaker_role, lambda_role) ←
    create_data_baseline_job_roles assets_bucket baseline_job_name
      training_data_location baseline_job_output_location kms_key_arn
      kms_key_arn_provided_condition;
  (* defining the lambda function that gets invoked in this stage *)
  mret {| function_id := "create_data_baseline_job";
          runtime := PYTHON_3_8;
          handler := lambda_handler;
          layers := [];
          role := lambda_role;
          code := from_bucket blueprint_bucket
                    "blueprints/byom/lambdas/create_data_baseline_job.zip";
          environment := dict_literal
            [("BASELINE_JOB_NAME", baseline_job_name);
             ("ASSETS_BUCKET", bucket_name assets_bucket);
             ("SAGEMAKER_ENDPOINT_NAME", endpoint_name);
             ("TRAINING_DATA_LOCATION", training_data_location);
             ("BASELINE_JOB_OUTPUT_LOCATION", baseline_job_output_location);
             ("INSTANCE_TYPE", instance_type);
             ("INSTANCE_VOLUME_SIZE", instance_volume_size);
             ("MAX_RUNTIME_SECONDS", max_runtime_seconds);
             ("ROLE_ARN", role_arn sagemaker_role);
             ("KMS_KEY_ARN", kms_key_arn);
             ("STACK_NAME", stack_name);
             ("LOG_LEVEL", "INFO")];
          timeout := Some 10%Z |}.

Definition create_stackset_action
    (action_name : string) (blueprint_bucket : Bucket)
    (source_output : Artifact)
    (artifact template_file stage_params_file accound_ids org_ids regions : PyValue)
    (assets_bucket : Bucket) (stack_name : string) (w : Uuid.World)
  : (string * LambdaInvokeAction) * Uuid.World :=
  (* creating a role so that this lambda can create a baseline job *)
  let lambda_role :=
    create_service_role (action_name +:+ "_role") lambda_service
      "The role that is assumed by create_update_cf_stackset Lambda function." in
  (* make the stackset name unique *)
  let '(u, w) := Uuid.uuid4 w in
  let stack_name := stack_name +:+ "-" +:+ PyStr.slice 0 8 (Uuid.str u) in
  (* cloudformation stackset permissions *)
  let cloudformation_stackset_permissions :=
    cloudformation_stackset_policy stack_name in
  let cloudformation_stackset_instances_permissions :=
    cloudformation_stackset_instances_policy stack_name in
  let lambda_role := add_to_policy lambda_role cloudformation_stackset_permissions in
  let lambda_role :=
    add_to_policy lambda_role cloudformation_stackset_instances_permissions in
  let lambda_role := add_logs_policy lambda_role in
  (* defining the lambda function that gets invoked in this stage *)
  let create_update_cf_stackset_lambda :=
    {| function_id := action_name +:+ "_stackset_lambda";
       runtime := PYTHON_3_8;
       handler := "main.lambda_handler";
       layers := [];
       role := lambda_role;
       code := from_bucket blueprint_bucket
                 "blueprints/byom/lambdas/create_update_cf_stackset.zip";
       environment := ∅;
       timeout := Some 15%Z |} in
  (* Create codepipeline action *)
  let create_stackset_action :=
    {| lia_action_name := action_name;
       lia_inputs := [source_output];
       lia_variables_namespace := action_name +:+ "-namespace";
       lia_lambda := create_update_cf_stackset_lambda;
       lia_user_parameters := dict_literal
         [("stackset_name", VStr stack_name);
          ("artifact", artifact);
          ("template_file", template_file);
          ("stage_params_file", stage_params_file);
          ("accound_ids", accound_ids);
          ("org_ids", org_ids);
          ("regions", regions)];
       lia_run_order := 1%Z |} in
  ((function_arn create_update_cf_stackset_lambda, create_stackset_action), w).

(** [run_order] is [None] when the caller leaves it to its default.
    No [output] is passed on, so the action names no artifact it writes.
    The run order reaches the construct library as a number: the action
    holds it as given when it is an [exact_number]. *)
Definition create_cloudformation_action
    (action_name stack_name : string) (source_output : Artifact)
    (template_file template_parameters_file : string) (run_order : option Z)
  : CloudFormationCreateUpdateStackAction :=
  let run_order := default 1%Z run_order in
  (* Create codepipeline's cloudformation action *)
  {| cfn_action_name := action_name;
     cfn_stack_name := stack_name;
     cfn_capabilities := ["CAPABILITY_NAMED_IAM"];
     cfn_template_path := at_path source_output template_file;
     cfn_admin_permissions := true;
     cfn_template_configuration := at_path source_output template_parameters_file;
     cfn_variables_namespace := action_name +:+ "-namespace";
     cfn_replace_on_failure := true;
     cfn_run_order := run_order;
     cfn_output_file_name := None;
     cfn_output := None |}.

(** The function is created without a role, so the construct library
    gives it a service role of its own, to which [add_to_role_policy]
    adds. *)
Definition create_invoke_lambda_custom_resource
    (id lambda_function_arn lambda_function_name : string)
    (blueprint_bucket : Bucket)
    (custom_resource_properties : gmap string PyValue) : CustomResource :=
  let custom_resource_lambda_fn :=
    {| function_id := id;
       runtime := PYTHON_3_8;
       handler := "index.handler";
       layers := [];
       role := add_to_policy
                 (create_service_role (id +:+ "/ServiceRole") lambda_service "")
                 {| actions := ["lambda:InvokeFunction"];
                    resources := [lambda_function_arn] |};
       code := from_bucket blueprint_bucket
                 "blueprints/byom/lambdas/invoke_lambda_custom_resource.zip";
       environment := ∅;
       timeout := Some 5%Z |} in
  {| cr_id := id +:+ "CustomeResource";
     cr_service_token := function_arn custom_resource_lambda_fn;
     cr_properties :=
       dict_update
         (dict_literal
            [("function_name", VStr lambda_function_name);
             ("message", VStr ("Invoking lambda function: " +:+ lambda_function_name))])
         custom_resource_properties;
     cr_resource_type := "Custom::InvokeLambda" |}.

End DeployActions.

(** ** Concrete inputs *)

Module Sample.

Import IamPolicies.

Definition batch_transform_policy : PolicyStatement :=
  {| actions := category_actions ComputeBatchTransform;
     resources := ["arn:aws:sagemaker:*:*:transform-job/*"] |}.

Definition processing_job_arn (name : string) : string :=
  "arn:aws:sagemaker:*:*:processing-job/" +:+ name.

Definition cloudformation_stackset_policy (name : string) : PolicyStatement :=
  {| actions := category_actions StackManagement;
     resources := ["arn:aws:cloudformation:*:*:stackset/" +:+ name +:+ ":*"] |}.

Definition cloudformation_stackset_instances_policy (name : string) : PolicyStatement :=
  {| actions := ["create-stack-instances"; "delete-stack-instances"];
     resources := ["arn:aws:cloudformation:*:*:stackset-target/" +:+ name +:+ ":*"] |}.

Definition logs_statements : list PolicyStatement :=
  [{| actions := ["logs:CreateLogGroup"; "logs:CreateLogStream"; "logs:PutLogEvents"];
      resources := ["arn:aws:logs:*:*:log-group:/aws/lambda/*"] |}].

Definition blueprints : Bucket := {| bucket_name := "blueprints" |}.
Definition assets : Bucket := {| bucket_name := "assets" |}.

Definition source : Artifact := {| artifact_name := "source" |}.



(** An entropy pool whose first two 16-byte draws differ in their last
    byte only. *)
Definition world : Uuid.World :=
  {| Uuid.entropy := fun i => if (i =? 31)%nat then x01 else x00;
     Uuid.cursor := 0 |}.

(** One stackset action of a session; two calls differ in the action
    name only. *)
Definition stackset_action (action_name : string) (w : Uuid.World)
  : (string * LambdaInvokeAction) * Uuid.World :=
  create_stackset_action
    cloudformation_stackset_policy cloudformation_stackset_instances_policy
    logs_statements
    action_name blueprints source (VStr "SourceArtifact")
    (VStr "template.yaml") (VStr "params.json")
    (VList ["111111111111"]) (VList []) (VList ["us-east-1"])
    assets "model-monitor" w.

Definition stackset_name (r : (string * LambdaInvokeAction) * Uuid.World)
  : option PyValue :=
  lia_user_parameters r.1.2 !! "stackset_name".

End Sample.

(** * Properties *)

(** ** Facts about strings *)

Module PyStrFacts.

Import PyStr.

Lemma app_nil_l (b : string) : "" +:+ b = b.
Proof. reflexivity. Qed.

Lemma app_cons (x : ascii) (a b : string) :
  String x a +:+ b = String x (a +:+ b).
Proof. reflexivity. Qed.

Lemma length_app (a b : string) :
  String.length (a +:+ b) = (String.length a + String.length b)%nat.
Proof.
  induction a as [|x a IH]; [reflexivity |].
  rewrite app_cons. simpl. now rewrite IH.
Qed.

Lemma app_assoc (a b c : string) : (a +:+ b) +:+ c = a +:+ (b +:+ c).
Proof.
  induction a as [|x a IH]; [reflexivity |].
  rewrite !app_cons. now rewrite IH.
Qed.

Lemma substring_0_app (a b : string) :
  String.substring 0 (String.length a) (a +:+ b) = a.
Proof.
  induction a as [|x a IH]; [now destruct b |].
  rewrite app_cons. simpl. now rewrite IH.
Qed.

Lemma all_chars_app p (a b : string) :
  all_chars p (a +:+ b) = all_chars p a && all_chars p b.
Proof.
  induction a as [|x a IH]; [reflexivity |].
  rewrite app_cons. simpl. now rewrite IH, andb_assoc.
Qed.

Lemma app_neq_self (p : string) (c : ascii) (s : string) :
  p +:+ String c s <> p.
Proof.
  intros H. apply (f_equal String.length) in H.
  rewrite length_app in H. simpl in H. lia.
Qed.

Lemma app_nil_r (a : string) : a +:+ "" = a.
Proof.
  induction a as [|x a IH]; [reflexivity |].
  rewrite app_cons. now rewrite IH.
Qed.

Lemma app_neq_prefix (p s : string) : s <> "" -> p +:+ s <> p.
Proof. destruct s as [|c s]; [congruence | intros _; apply app_neq_self]. Qed.

End PyStrFacts.

(** ** Facts about [uuid] *)

Module UuidFacts.

Import Uuid PyStrFacts.
Local Open Scope Z_scope.

Lemma length_hex_digits (n : nat) (v : Z) :
  String.length (hex_digits n v) = n.
Proof.
  revert v. induction n as [|n IH]; intros v; [reflexivity |].
  simpl. rewrite length_app, IH. simpl. lia.
Qed.

Lemma hex_digit_lower (d : Z) :
  0 <= d < 16 -> PyStr.is_lower_hex (hex_digit d) = true.
Proof.
  intros H.
  assert (Hd : d = 0 \/ d = 1 \/ d = 2 \/ d = 3 \/ d = 4 \/ d = 5 \/ d = 6
               \/ d = 7 \/ d = 8 \/ d = 9 \/ d = 10 \/ d = 11 \/ d = 12
               \/ d = 13 \/ d = 14 \/ d = 15) by lia.
  repeat (destruct Hd as [-> | Hd]; [reflexivity |]). now subst.
Qed.

Lemma hex_digits_lower (n : nat) (v : Z) :
  PyStr.all_chars PyStr.is_lower_hex (hex_digits n v) = true.
Proof.
  revert v. induction n as [|n IH]; intros v; [reflexivity |].
  simpl. rewrite all_chars_app, IH. simpl.
  rewrite hex_digit_lower; [reflexivity |].
  apply Z.mod_pos_bound. lia.
Qed.

(** The leading [n] digits of an [n + m]-digit print are the print of
    the value shifted right by [m] digits. *)
Lemma hex_digits_add (n m : nat) (v : Z) :
  hex_digits (n + m) v = hex_digits n (v / 16 ^ Z.of_nat m) +:+ hex_digits m v.
Proof.
  revert v. induction m as [|m IH]; intros v.
  - rewrite Nat.add_0_r. simpl. now rewrite Z.div_1_r, app_nil_r.
  - rewrite Nat.add_succ_r. simpl hex_digits.
    rewrite IH, app_assoc. do 2 f_equal.
    rewrite Nat2Z.inj_succ, Z.pow_succ_r by lia.
    rewrite Z.div_div by lia. reflexivity.
Qed.

Lemma int_from_bytes_acc (bs : list byte) (acc : Z) :
  fold_left (fun acc b => acc * 256 + Z.of_N (Byte.to_N b)) bs acc
  = acc * 256 ^ Z.of_nat (length bs) + int_from_bytes bs.
Proof.
  unfold int_from_bytes. revert acc.
  induction bs as [|b bs IH]; intros acc.
  - simpl. lia.
  - cbn [fold_left length]. rewrite IH, (IH (0 * 256 + _)).
    rewrite Nat2Z.inj_succ, Z.pow_succ_r by lia. ring.
Qed.

Lemma int_from_bytes_app (a b : list byte) :
  int_from_bytes (a ++ b)
  = int_from_bytes a * 256 ^ Z.of_nat (length b) + int_from_bytes b.
Proof.
  unfold int_from_bytes at 1. rewrite fold_left_app.
  fold (int_from_bytes a). apply int_from_bytes_acc.
Qed.

Lemma byte_range (b : byte) : 0 <= Z.of_N (Byte.to_N b) < 256.
Proof. pose proof (Byte.to_N_bounded b). lia. Qed.

Lemma int_from_bytes_range (bs : list byte) :
  0 <= int_from_bytes bs < 256 ^ Z.of_nat (length bs).
Proof.
  induction bs as [|b bs IH] using rev_ind.
  - cbn. lia.
  - rewrite int_from_bytes_app, List.length_app. cbn [length].
    change (int_from_bytes [b]) with (0 * 256 + Z.of_N (Byte.to_N b)).
    pose proof (byte_range b).
    replace (Z.of_nat (length bs + 1)) with (Z.succ (Z.of_nat (length bs))) by lia.
    rewrite Z.pow_succ_r by lia. change (256 ^ Z.of_nat 1) with 256. nia.
Qed.

(** Setting the variant and version bits leaves bits 96 and up alone. *)
Lemma UUID_high_bits (bs : list byte) :
  Z.shiftr (UUID bs 4) 96 = Z.shiftr (int_from_bytes bs) 96.
Proof.
  apply Z.bits_inj'. intros n Hn.
  rewrite !Z.shiftr_spec by lia. unfold UUID.
  rewrite Z.lor_spec, Z.land_spec, Z.lor_spec, Z.land_spec.
  rewrite !Z.lnot_spec, !Z.shiftl_spec by lia.
  assert (H1 : Z.testbit 0xc000 (n + 96 - 48) = false)
    by (apply Z.bits_above_log2; [lia | change (Z.log2 0xc000) with 15; lia]).
  assert (H2 : Z.testbit 0x8000 (n + 96 - 48) = false)
    by (apply Z.bits_above_log2; [lia | change (Z.log2 0x8000) with 15; lia]).
  assert (H3 : Z.testbit 0xf000 (n + 96 - 64) = false)
    by (apply Z.bits_above_log2; [lia | change (Z.log2 0xf000) with 15; lia]).
  assert (H4 : Z.testbit 4 (n + 96 - 76) = false)
    by (apply Z.bits_above_log2; [lia | change (Z.log2 4) with 2; lia]).
  rewrite H1, H2, H3, H4. cbn.
  now rewrite !andb_true_r, !orb_false_r.
Qed.

Lemma substring_0_length (n : nat) (a b : string) :
  String.length a = n -> String.substring 0 n (a +:+ b) = a.
Proof. intros <-. apply substring_0_app. Qed.

(** The first eight characters of the printed UUID are the print of
    its top 32 bits. *)
Lemma str_prefix (u : Z) :
  PyStr.slice 0 8 (str u) = hex_digits 8 (u / 16 ^ 24).
Proof.
  assert (Hh : PyStr.slice 0 8 (hex_digits 32 u) = hex_digits 8 (u / 16 ^ 24)).
  { unfold PyStr.slice. change (8 - 0)%nat with 8%nat.
    change 32%nat with (8 + 24)%nat. rewrite hex_digits_add.
    apply substring_0_length, length_hex_digits. }
  unfold str. cbv zeta. rewrite Hh.
  unfold PyStr.slice at 1. change (8 - 0)%nat with 8%nat.
  apply substring_0_length, length_hex_digits.
Qed.

Lemma urandom_split (w : World) :
  (urandom 16 w).1
  = ((urandom 4 w).1
     ++ List.map (fun i => entropy w (cursor w + i)%nat) (seq 4 12))%list.
Proof.
  unfold urandom. cbn [fst].
  change (seq 0 16) with (seq 0 4 ++ seq 4 12)%list.
  apply List.map_app.
Qed.

Lemma uuid4_cursor (w : World) : cursor (uuid4 w).2 = (cursor w + 16)%nat.
Proof. reflexivity. Qed.

Lemma uuid4_entropy (w : World) : entropy (uuid4 w).2 = entropy w.
Proof. reflexivity. Qed.

(** The eight characters kept of a fresh UUID print the first four
    bytes drawn. *)
Lemma uuid4_prefix (w : World) :
  PyStr.slice 0 8 (str (uuid4 w).1)
  = hex_digits 8 (int_from_bytes (urandom 4 w).1).
Proof.
  rewrite str_prefix. f_equal.
  change (uuid4 w).1 with (UUID (urandom 16 w).1 4).
  change (16 ^ 24) with (2 ^ 96).
  rewrite <- Z.shiftr_div_pow2, UUID_high_bits, Z.shiftr_div_pow2 by lia.
  rewrite urandom_split, int_from_bytes_app.
  rewrite List.length_map, List.length_seq.
  set (tl := List.map _ (seq 4 12)).
  pose proof (int_from_bytes_range tl) as Ht.
  unfold tl in Ht. rewrite List.length_map, List.length_seq in Ht. fold tl in Ht.
  change (256 ^ Z.of_nat 12) with (2 ^ 96) in *.
  rewrite Z.div_add_l by lia. rewrite (Z.div_small (int_from_bytes tl)) by lia.
  lia.
Qed.

Lemma app_last_inj (a b : string) (x y : ascii) :
  a +:+ String x "" = b +:+ String y "" -> a = b /\ x = y.
Proof.
  revert b. induction a as [|c a IH]; intros [|d b]; rewrite ?app_cons, ?app_nil_l.
  - now intros [= ->].
  - intros [= _ H]. destruct b; discriminate H.
  - intros [= _ H]. destruct a; discriminate H.
  - intros [= -> H]. destruct (IH _ H) as [-> ->]. now split.
Qed.

Lemma hex_digit_inj (a b : Z) :
  0 <= a < 16 -> 0 <= b < 16 -> hex_digit a = hex_digit b -> a = b.
Proof.
  intros Ha Hb.
  assert (Ea : a = 0 \/ a = 1 \/ a = 2 \/ a = 3 \/ a = 4 \/ a = 5 \/ a = 6
               \/ a = 7 \/ a = 8 \/ a = 9 \/ a = 10 \/ a = 11 \/ a = 12
               \/ a = 13 \/ a = 14 \/ a = 15) by lia.
  assert (Eb : b = 0 \/ b = 1 \/ b = 2 \/ b = 3 \/ b = 4 \/ b = 5 \/ b = 6
               \/ b = 7 \/ b = 8 \/ b = 9 \/ b = 10 \/ b = 11 \/ b = 12
               \/ b = 13 \/ b = 14 \/ b = 15) by lia.
  clear Ha Hb. destruct_or!; subst; intros H; (reflexivity || discriminate H).
Qed.

(** Distinct values below [16^n] print differently: eight digits carry
    all 32 bits of the four bytes they print. *)
Lemma hex_digits_inj (n : nat) (a b : Z) :
  0 <= a < 16 ^ Z.of_nat n -> 0 <= b < 16 ^ Z.of_nat n ->
  hex_digits n a = hex_digits n b -> a = b.
Proof.
  revert a b. induction n as [|n IH]; intros a b Ha Hb H.
  - cbn in Ha, Hb. lia.
  - rewrite Nat2Z.inj_succ, Z.pow_succ_r in Ha, Hb by lia.
    cbn [hex_digits] in H. apply app_last_inj in H as [Hhi Hlo].
    apply IH in Hhi;
      [| split; [apply Z.div_pos | apply Z.div_lt_upper_bound]; lia ..].
    apply hex_digit_inj in Hlo; [| apply Z.mod_pos_bound; lia ..].
    rewrite (Z.div_mod a 16), (Z.div_mod b 16) by lia. congruence.
Qed.

End UuidFacts.

(** ** Facts about dictionaries *)

Module DictFacts.

Lemma dict_literal_snoc {V : Type} (l : list (string * V)) (k : string) (v : V) :
  dict_literal (l ++ [(k, v)]) = <[k := v]> (dict_literal l).
Proof. unfold dict_literal. now rewrite fold_left_app. Qed.

(** With pairwise distinct keys, the dictionary holds exactly the
    entries written. *)
Lemma dict_literal_lookup {V : Type} (l : list (string * V)) (k : string) (v : V) :
  NoDup (l.*1) -> dict_literal l !! k = Some v <-> (k, v) ∈ l.
Proof.
  induction l as [|[k' v'] l IH] using rev_ind; intros Hnd.
  - cbn. rewrite lookup_empty, elem_of_nil. split; [discriminate | tauto].
  - rewrite fmap_app in Hnd. apply NoDup_app in Hnd as (Hl & Hk & _).
    rewrite dict_literal_snoc, elem_of_app, list_elem_of_singleton.
    destruct (decide (k' = k)) as [-> | Hne].
    + rewrite lookup_insert_eq. split.
      * intros [= ->]. now right.
      * intros [Hin | [= ->]]; [| reflexivity].
        exfalso. apply (Hk k); [| cbn; left].
        apply list_elem_of_fmap. now exists (k, v).
    + rewrite lookup_insert_ne by assumption. rewrite IH by assumption.
      split; [tauto |]. intros [Hin | [= -> ->]]; [assumption | congruence].
Qed.

Lemma dict_update_lookup {V : Type} (base extra : gmap string V) (k : string) :
  dict_update base extra !! k
  = match extra !! k with
    | Some v => Some v
    | None => base !! k
    end.
Proof.
  unfold dict_update. rewrite lookup_union.
  destruct (extra !! k), (base !! k); reflexivity.
Qed.

End DictFacts.

(** ** The policy builder *)

Module IamPoliciesFacts.

Import IamPolicies.

Lemma remove_dups_NoDup (l : list string) : NoDup l -> remove_dups l = l.
Proof.
  induction 1 as [|x l Hx _ IH]; [reflexivity |].
  cbn. rewrite IH. now destruct (decide_rel elem_of x l).
Qed.

Lemma buildPolicy_ok (category : string) (c : Category) (ids : list string) :
  parse_category category = Some c -> ids <> [] ->
  buildPolicy category ids
  = Ok {| actions := category_actions c; resources := remove_dups ids |}.
Proof.
  intros Hc Hne. unfold buildPolicy. rewrite Hc.
  destruct ids; [congruence | reflexivity].
Qed.

Lemma buildPolicy_inv (category : string) (ids : list string) (st : PolicyStatement) :
  buildPolicy category ids = Ok st ->
  exists c, parse_category category = Some c /\ ids <> []
            /\ st = {| actions := category_actions c; resources := remove_dups ids |}.
Proof.
  unfold buildPolicy. destruct (parse_category category) as [c|]; [| discriminate].
  destruct ids as [|x ids]; [discriminate |].
  intros [= <-]. exists c. repeat split. discriminate.
Qed.

Lemma remove_dups_nil_inv (l : list string) : remove_dups l = [] -> l = [].
Proof.
  destruct l as [|x l]; [reflexivity |]. intros H.
  assert (Hin : x ∈ remove_dups (x :: l)) by (apply elem_of_remove_dups; left).
  rewrite H in Hin. inversion Hin.
Qed.

Lemma elem_of_list_set (l : list string) (x : string) : x ∈ list_set l <-> x ∈ l.
Proof. unfold list_set. rewrite elem_of_elements. apply elem_of_list_to_set. Qed.

Lemma NoDup_list_set (l : list string) : NoDup (list_set l).
Proof. unfold list_set. apply NoDup_elements. Qed.

Lemma list_set_cons_ne (x : string) (l : list string) : list_set (x :: l) <> [].
Proof.
  intros H. assert (Hin : x ∈ list_set (x :: l)) by (apply elem_of_list_set; left).
  rewrite H in Hin. inversion Hin.
Qed.

End IamPoliciesFacts.

(** C1. For every valid category and every non-empty collection of
    resource identifiers, the policy builder returns a statement carrying
    the category's actions whose resources are exactly the identifiers
    supplied, each once: no duplicate, nothing added, nothing left out. *)
Theorem buildPolicy_resources_exact
    (category : string) (c : IamPolicies.Category) (ids : list string) :
  IamPolicies.parse_category category = Some c ->
  ids <> [] ->
  exists st,
    IamPolicies.buildPolicy category ids = Ok st
    /\ actions st = IamPolicies.category_actions c
    /\ NoDup (resources st)
    /\ (forall x, x ∈ resources st <-> x ∈ ids)
    /\ (list_to_set (resources st) : gset string) = list_to_set ids.
Proof.
  intros Hc Hne. eexists. split; [apply (IamPoliciesFacts.buildPolicy_ok _ c); assumption |].
  cbn [actions resources]. split; [reflexivity |].
  split; [apply NoDup_remove_dups |].
  split; [intros x; apply elem_of_remove_dups |].
  apply set_eq. intros x. rewrite !elem_of_list_to_set. apply elem_of_remove_dups.
Qed.

Lemma buildPolicy_resources_exact_witness :
  exists st,
    IamPolicies.buildPolicy "storage-read"
      ["arn:aws:s3:::assets"; "arn:aws:s3:::assets/*"; "arn:aws:s3:::assets"] = Ok st
    /\ actions st = ["get-object"; "list-bucket"]
    /\ NoDup (resources st)
    /\ (forall x, x ∈ resources st
                  <-> x ∈ ["arn:aws:s3:::assets"; "arn:aws:s3:::assets/*"; "arn:aws:s3:::assets"])
    /\ (list_to_set (resources st) : gset string)
       = list_to_set ["arn:aws:s3:::assets"; "arn:aws:s3:::assets/*"; "arn:aws:s3:::assets"].
Proof.
  apply (buildPolicy_resources_exact "storage-read" IamPolicies.StorageRead).
  - reflexivity.
  - discriminate.
Defined.

(** C6. For every category other than key-management the policy builder
    signals [EmptyResourceSet] when no identifier is supplied, and a
    statement it returns never has an empty resources set. *)
Theorem buildPolicy_empty_resource_set
    (category : string) (c : IamPolicies.Category) :
  IamPolicies.parse_category category = Some c ->
  c <> IamPolicies.KeyManagement ->
  IamPolicies.buildPolicy category [] = Raise EmptyResourceSet
  /\ forall ids st, IamPolicies.buildPolicy category ids = Ok st -> resources st <> [].
Proof.
  intros Hc _. split.
  - unfold IamPolicies.buildPolicy. now rewrite Hc.
  - intros ids st H.
    destruct (IamPoliciesFacts.buildPolicy_inv _ _ _ H) as (c' & _ & Hne & ->).
    cbn [resources]. intros E. apply Hne.
    now apply IamPoliciesFacts.remove_dups_nil_inv.
Qed.

Lemma buildPolicy_empty_resource_set_witness :
  IamPolicies.buildPolicy "storage-write" [] = Raise EmptyResourceSet
  /\ resources {| actions := ["put-object"];
                  resources := ["arn:aws:s3:::out/*"] |} <> [].
Proof.
  destruct (buildPolicy_empty_resource_set "storage-write" IamPolicies.StorageWrite)
    as [H1 H2]; [reflexivity | discriminate |].
  split; [exact H1 |].
  apply (H2 ["arn:aws:s3:::out/*"]). reflexivity.
Defined.

(** ** Names built by appending *)

Module NamingFacts.

Import PyStr PyStrFacts Uuid UuidFacts.

(** Two appends with tails of one length agree only part by part. *)
Lemma app_inj_length (a b s t : string) :
  String.length s = String.length t ->
  a +:+ s = b +:+ t -> a = b /\ s = t.
Proof.
  intros Hlen. revert b.
  induction a as [|x a IH]; intros [|y b]; rewrite ?app_cons, ?app_nil_l.
  - now intros ->.
  - intros H. apply (f_equal String.length) in H.
    cbn in H. rewrite length_app in H. lia.
  - intros H. apply (f_equal String.length) in H.
    cbn in H. rewrite length_app in H. lia.
  - intros [= -> H]. destruct (IH _ H) as [-> ->]. now split.
Qed.

Lemma app_inj_suffix (a b s : string) : a +:+ s = b +:+ s -> a = b.
Proof. intros H. now apply (app_inj_length a b s s) in H. Qed.

Lemma app_neq_last (a b s t : string) (x y : ascii) :
  x <> y -> a +:+ (s +:+ String x "") <> b +:+ (t +:+ String y "").
Proof.
  intros Hxy H. rewrite <- !app_assoc in H.
  apply app_last_inj in H as [_ H]. contradiction.
Qed.

Lemma byte_to_N_inj (x y : byte) : Byte.to_N x = Byte.to_N y -> x = y.
Proof.
  intros H. pose proof (Byte.of_to_N x) as Hx.
  rewrite H, Byte.of_to_N in Hx. congruence.
Qed.

(** Byte strings of one length that read as the same number are equal. *)
Lemma int_from_bytes_inj (a b : list byte) :
  length a = length b -> int_from_bytes a = int_from_bytes b -> a = b.
Proof.
  revert b. induction a as [|x a IH] using rev_ind; intros b Hlen H.
  - destruct b; [reflexivity | discriminate Hlen].
  - destruct b as [|y b _] using rev_ind.
    + rewrite List.length_app in Hlen. cbn in Hlen. lia.
    + rewrite !List.length_app in Hlen. cbn in Hlen.
      rewrite !int_from_bytes_app in H. cbn [length] in H.
      change (256 ^ Z.of_nat 1)%Z with 256%Z in H.
      change (int_from_bytes [x]) with (0 * 256 + Z.of_N (Byte.to_N x))%Z in H.
      change (int_from_bytes [y]) with (0 * 256 + Z.of_N (Byte.to_N y))%Z in H.
      pose proof (byte_range x). pose proof (byte_range y).
      assert (Hhi : int_from_bytes a = int_from_bytes b) by lia.
      assert (Hlo : Byte.to_N x = Byte.to_N y) by lia.
      f_equal; [apply IH; [lia | exact Hhi] | f_equal; now apply byte_to_N_inj].
Qed.

Lemma length_urandom (n : nat) (w : World) : length (urandom n w).1 = n.
Proof. unfold urandom. cbn [fst]. now rewrite List.length_map, List.length_seq. Qed.

(** The eight digits kept of two fresh UUIDs agree exactly when the first
    four bytes drawn agree. *)
Lemma uuid4_prefix_eq_iff (w w' : World) :
  slice 0 8 (str (uuid4 w).1) = slice 0 8 (str (uuid4 w').1)
  <-> (urandom 4 w).1 = (urandom 4 w').1.
Proof.
  rewrite !uuid4_prefix. split; [| now intros ->].
  intros H. apply int_from_bytes_inj; [now rewrite !length_urandom |].
  apply (hex_digits_inj 8); [| | exact H].
  - pose proof (int_from_bytes_range (urandom 4 w).1) as Hr.
    rewrite length_urandom in Hr. exact Hr.
  - pose proof (int_from_bytes_range (urandom 4 w').1) as Hr.
    rewrite length_urandom in Hr. exact Hr.
Qed.

(** Reading back what [hex_digit] prints. *)
Lemma hex_value_hex_digit (d : Z) :
  (0 <= d < 16)%Z -> hex_value (hex_digit d) = Some d.
Proof.
  intros H.
  assert (Hd : (d = 0 \/ d = 1 \/ d = 2 \/ d = 3 \/ d = 4 \/ d = 5 \/ d = 6
                \/ d = 7 \/ d = 8 \/ d = 9 \/ d = 10 \/ d = 11 \/ d = 12
                \/ d = 13 \/ d = 14 \/ d = 15)%Z) by lia.
  destruct_or!; subst; reflexivity.
Qed.

Lemma of_hex_from_app (acc : Z) (a b : string) :
  of_hex_from acc (a +:+ b)
  = match of_hex_from acc a with
    | Some x => of_hex_from x b
    | None => None
    end.
Proof.
  revert acc. induction a as [|c a IH]; intros acc.
  - now rewrite app_nil_l.
  - rewrite app_cons. cbn [of_hex_from].
    destruct (hex_value c); [apply IH | reflexivity].
Qed.

(** The digits printed for a value below [16^n] denote that value. *)
Lemma of_hex_hex_digits (n : nat) (v : Z) :
  (0 <= v < 16 ^ Z.of_nat n)%Z -> of_hex (hex_digits n v) = Some v.
Proof.
  unfold of_hex. revert v. induction n as [|n IH]; intros v Hv.
  - cbn in Hv. cbn. f_equal. lia.
  - rewrite Nat2Z.inj_succ, Z.pow_succ_r in Hv by lia.
    cbn [hex_digits]. rewrite of_hex_from_app, IH.
    + cbn [of_hex_from]. rewrite hex_value_hex_digit by (apply Z.mod_pos_bound; lia).
      f_equal. rewrite (Z.div_mod v 16) at 3 by lia. reflexivity.
    + split; [apply Z.div_pos | apply Z.div_lt_upper_bound]; lia.
Qed.

End NamingFacts.

(** ** What the factories return *)

Section FactoryFacts.

Import IamPolicies ConditionalResource IamPoliciesFacts DictFacts NamingFacts.

Variable batch_transform_policy : PolicyStatement.
Variable processing_job_arn : string -> string.
Variable cloudformation_stackset_policy : string -> PolicyStatement.
Variable cloudformation_stackset_instances_policy : string -> PolicyStatement.
Variable logs_statements : list PolicyStatement.
Variable logs_metrics_statements : list PolicyStatement.

Lemma fold_add_to_policy (l : list PolicyStatement) (r : Role) :
  fold_left add_to_policy l r
  = {| role_id := role_id r; assumed_by := assumed_by r;
       description := description r;
       inline := (inline r ++ l)%list; attached := attached r |}.
Proof.
  revert r. induction l as [|st l IH]; intros r.
  - cbn. rewrite app_nil_r. now destruct r.
  - cbn [fold_left]. rewrite IH. cbn. now rewrite <- app_assoc.
Qed.

Lemma remove_dups_singleton (x : string) : remove_dups [x] = [x].
Proof. apply remove_dups_NoDup, NoDup_singleton. Qed.

Lemma remove_dups_object_under (bucket key : string) :
  remove_dups [bucket; bucket +:+ "/" +:+ key] = [bucket; bucket +:+ "/" +:+ key].
Proof.
  apply remove_dups_NoDup, NoDup_cons. split; [| apply NoDup_singleton].
  rewrite list_elem_of_singleton. intros H. symmetry in H.
  revert H. apply PyStrFacts.app_neq_self.
Qed.

(** [batch_transform] returns for every input; the role of the function
    it returns and the environment it passes on. *)
Lemma batch_transform_returns
    (id : string) (blueprint_bucket assets_bucket : Bucket)
    (model_name inference_instance batch_input_bucket batch_inference_data
     batch_job_output_location kms_key_arn : string)
    (sm_layer : LayerVersion) :
  exists fn,
    batch_transform batch_transform_policy logs_statements
      id blueprint_bucket assets_bucket model_name inference_instance
      batch_input_bucket batch_inference_data batch_job_output_location
      kms_key_arn sm_layer = Ok fn
    /\ inline (role fn)
       = batch_transform_policy
         :: {| actions := category_actions StorageRead;
               resources :=
                 list_set
                   ["arn:aws:s3:::" +:+ bucket_name assets_bucket;
                    "arn:aws:s3:::" +:+ bucket_name assets_bucket +:+ "/*";
                    "arn:aws:s3:::" +:+ batch_input_bucket;
                    "arn:aws:s3:::" +:+ batch_inference_data] |}
         :: {| actions := category_actions StorageWrite;
               resources := ["arn:aws:s3:::" +:+ batch_job_output_location +:+ "/*"] |}
         :: logs_statements
    /\ attached (role fn) = []
    /\ environment fn
       = dict_literal
           [("model_name", model_name);
            ("inference_instance", inference_instance);
            ("assets_bucket", bucket_name assets_bucket);
            ("batch_inference_data", batch_inference_data);
            ("batch_job_output_location", batch_job_output_location);
            ("kms_key_arn", kms_key_arn);
            ("LOG_LEVEL", "INFO")].
Proof.
  unfold batch_transform, s3_policy_read, s3_policy_write.
  rewrite (buildPolicy_ok "storage-read" StorageRead)
    by (reflexivity || apply list_set_cons_ne).
  rewrite (buildPolicy_ok "storage-write" StorageWrite)
    by (reflexivity || discriminate).
  rewrite (remove_dups_NoDup (list_set _)) by apply NoDup_list_set.
  rewrite remove_dups_singleton.
  eexists. split; [reflexivity |]. cbn [role environment].
  unfold add_logs_policy. rewrite fold_add_to_policy. cbn [inline attached].
  repeat split.
Qed.

(** The two roles of [create_data_baseline_job]. *)
Lemma create_data_baseline_job_roles_returns
    (assets_bucket : Bucket)
    (baseline_job_name training_data_location baseline_job_output_location
     kms_key_arn : string)
    (kms_key_arn_provided_condition : CfnCondition) :
  let s3_read :=
    {| actions := category_actions StorageRead;
       resources :=
         ["arn:aws:s3:::" +:+ bucket_name assets_bucket;
          "arn:aws:s3:::" +:+ bucket_name assets_bucket +:+ "/" +:+ training_data_location] |} in
  let s3_write :=
    {| actions := category_actions StorageWrite;
       resources := ["arn:aws:s3:::" +:+ baseline_job_output_location +:+ "/*"] |} in
  let baseline :=
    {| actions := category_actions ComputeBaselineJob;
       resources := [processing_job_arn baseline_job_name] |} in
  let kms :=
    {| actions := category_actions KeyManagement; resources := [kms_key_arn] |} in
  exists sagemaker_role lambda_role,
    create_data_baseline_job_roles processing_job_arn logs_statements
      logs_metrics_statements assets_bucket baseline_job_name
      training_data_location baseline_job_output_location kms_key_arn
      kms_key_arn_provided_condition = Ok (sagemaker_role, lambda_role)
    /\ role_id sagemaker_role = "create_baseline_sagemaker_role"
    /\ inline sagemaker_role
       = [{| actions := ["sts:AssumeRole"]; resources := [role_arn sagemaker_role] |};
          baseline; s3_read; s3_write]
    /\ attached sagemaker_role
       = [{| policy_id := "BaselineKmsPolicy"; statements := [kms];
             condition := Some kms_key_arn_provided_condition |};
          {| policy_id := "BaselineLogsMetrcis";
             statements := logs_metrics_statements; condition := None |}]
    /\ inline lambda_role
       = ({| actions := ["iam:PassRole"]; resources := [role_arn sagemaker_role] |}
          :: baseline :: s3_write :: s3_read :: logs_statements)
    /\ attached lambda_role = [].
Proof.
  cbv zeta.
  unfold create_data_baseline_job_roles, s3_policy_read, s3_policy_write,
    sagemaker_baseline_job_policy, kms_policy_document.
  rewrite (buildPolicy_ok "storage-read" StorageRead) by (reflexivity || discriminate).
  rewrite (buildPolicy_ok "storage-write" StorageWrite) by (reflexivity || discriminate).
  rewrite (buildPolicy_ok "compute-baseline-job" ComputeBaselineJob)
    by (reflexivity || discriminate).
  rewrite (buildPolicy_ok "key-management" KeyManagement) by (reflexivity || discriminate).
  rewrite !remove_dups_singleton.
  rewrite <- (PyStrFacts.app_assoc "arn:aws:s3:::" (bucket_name assets_bucket)
                ("/" +:+ training_data_location)).
  rewrite remove_dups_object_under.
  rewrite (PyStrFacts.app_assoc "arn:aws:s3:::" (bucket_name assets_bucket)).
  do 2 eexists. split; [reflexivity |].
  unfold add_logs_policy. rewrite fold_add_to_policy.
  repeat split.
Qed.

Lemma count_occ_other_actions (l : list PolicyStatement) (x : PolicyStatement) :
  Forall (fun s => actions s <> actions x) l ->
  count_occ PolicyStatement_eq_dec l x = 0.
Proof.
  induction 1 as [|s l Hs _ IH]; [reflexivity |].
  rewrite count_occ_cons_neq; [exact IH |].
  intros ->. now apply Hs.
Qed.

(** C7 (amended). The environment of the function built by
    [batch_transform] and by [create_data_baseline_job] holds exactly the
    entries the code writes: under each fixed key the value the caller
    supplied for the matching parameter, unchanged, plus the constant
    [LOG_LEVEL] and, for the baseline job, the ARN of the role the factory
    creates.  Nothing else is in it. *)
Theorem environment_entries
    (id : string) (blueprint_bucket assets_bucket : Bucket)
    (model_name inference_instance batch_input_bucket batch_inference_data
     batch_job_output_location kms_key_arn : string)
    (sm_layer : LayerVersion)
    (baseline_job_name training_data_location baseline_job_output_location
     endpoint_name instance_type instance_volume_size max_runtime_seconds : string)
    (kms_key_arn_provided_condition : CfnCondition)
    (stack_name : string) :
  (exists fn,
     batch_transform batch_transform_policy logs_statements
       id blueprint_bucket assets_bucket model_name inference_instance
       batch_input_bucket batch_inference_data batch_job_output_location
       kms_key_arn sm_layer = Ok fn
     /\ forall k v,
          environment fn !! k = Some v
          <-> (k, v) ∈ [("model_name", model_name);
                        ("inference_instance", inference_instance);
                        ("assets_bucket", bucket_name assets_bucket);
                        ("batch_inference_data", batch_inference_data);
                        ("batch_job_output_location", batch_job_output_location);
                        ("kms_key_arn", kms_key_arn);
                        ("LOG_LEVEL", "INFO")])
  /\ (exists fn,
        create_data_baseline_job processing_job_arn logs_statements
          logs_metrics_statements blueprint_bucket assets_bucket
          baseline_job_name training_data_location baseline_job_output_location
          endpoint_name instance_type instance_volume_size max_runtime_seconds
          kms_key_arn kms_key_arn_provided_condition stack_name = Ok fn
        /\ forall k v,
             environment fn !! k = Some v
             <-> (k, v) ∈ [("BASELINE_JOB_NAME", baseline_job_name);
                           ("ASSETS_BUCKET", bucket_name assets_bucket);
                           ("SAGEMAKER_ENDPOINT_NAME", endpoint_name);
                           ("TRAINING_DATA_LOCATION", training_data_location);
                           ("BASELINE_JOB_OUTPUT_LOCATION", baseline_job_output_location);
                           ("INSTANCE_TYPE", instance_type);
                           ("INSTANCE_VOLUME_SIZE", instance_volume_size);
                           ("MAX_RUNTIME_SECONDS", max_runtime_seconds);
                           ("ROLE_ARN", "${create_baseline_sagemaker_role.Arn}");
                           ("KMS_KEY_ARN", kms_key_arn);
                           ("STACK_NAME", stack_name);
                           ("LOG_LEVEL", "INFO")]).
Proof.
  split.
  - destruct (batch_transform_returns id blueprint_bucket assets_bucket model_name
                inference_instance batch_input_bucket batch_inference_data
                batch_job_output_location kms_key_arn sm_layer)
      as (fn & Hfn & _ & _ & Henv).
    exists fn. split; [exact Hfn |]. intros k v. rewrite Henv.
    apply dict_literal_lookup. apply (bool_decide_unpack _). vm_compute. reflexivity.
  - destruct (create_data_baseline_job_roles_returns assets_bucket baseline_job_name
                training_data_location baseline_job_output_location kms_key_arn
                kms_key_arn_provided_condition)
      as (sr & lr & Hroles & Hid & _).
    unfold create_data_baseline_job. rewrite Hroles.
    eexists. split; [reflexivity |]. intros k v. cbn [environment].
    unfold role_arn. rewrite Hid.
    change ("${" +:+ "create_baseline_sagemaker_role" +:+ ".Arn}")
      with "${create_baseline_sagemaker_role.Arn}".
    apply dict_literal_lookup. apply (bool_decide_unpack _). vm_compute. reflexivity.
Qed.

Section ConditionalKms.

(** The logging and metrics policy grants no key-management actions. *)
Hypothesis logs_metrics_no_kms :
  Forall (fun s => actions s <> category_actions KeyManagement)
    logs_metrics_statements.

(** C4. In the role [create_data_baseline_job] builds for the processing
    job, the key-management statement, which is paired with the
    key-provided flag, occurs in the materialized statements of the role
    exactly once when the flag evaluates true and not at all when it
    evaluates false. *)
Theorem conditional_statement_materialized
    (assets_bucket : Bucket)
    (baseline_job_name training_data_location baseline_job_output_location
     kms_key_arn : string)
    (kms_key_arn_provided_condition : CfnCondition)
    (flags : CfnCondition -> bool) :
  exists sagemaker_role lambda_role,
    create_data_baseline_job_roles processing_job_arn logs_statements
      logs_metrics_statements assets_bucket baseline_job_name
      training_data_location baseline_job_output_location kms_key_arn
      kms_key_arn_provided_condition = Ok (sagemaker_role, lambda_role)
    /\ count_occ PolicyStatement_eq_dec
         (materialize flags sagemaker_role)
         {| actions := category_actions KeyManagement; resources := [kms_key_arn] |}
       = (if flags kms_key_arn_provided_condition then 1 else 0).
Proof.
  destruct (create_data_baseline_job_roles_returns assets_bucket baseline_job_name
              training_data_location baseline_job_output_location kms_key_arn
              kms_key_arn_provided_condition)
    as (sr & lr & Hroles & _ & Hinline & Hattached & _).
  exists sr, lr. split; [exact Hroles |].
  unfold materialize. rewrite Hinline, Hattached.
  rewrite count_occ_app.
  rewrite count_occ_other_actions
    by (repeat constructor; cbn; discriminate).
  cbn [List.filter active condition].
  destruct (flags kms_key_arn_provided_condition);
    cbn [List.flat_map statements app]; rewrite List.app_nil_r.
  - rewrite count_occ_cons_eq by reflexivity.
    rewrite count_occ_other_actions by exact logs_metrics_no_kms. reflexivity.
  - rewrite count_occ_other_actions by exact logs_metrics_no_kms. reflexivity.
Qed.

End ConditionalKms.

(** The name [create_stackset_action] gives the stackset: the caller's
    name, a dash, and the first eight characters of a fresh UUID. *)
Lemma stackset_name_lookup
    (action_name : string) (blueprint_bucket : Bucket) (source_output : Artifact)
    (artifact template_file stage_params_file accound_ids org_ids regions : PyValue)
    (assets_bucket : Bucket) (stack_name : string) (w : Uuid.World) :
  lia_user_parameters
    (create_stackset_action cloudformation_stackset_policy
       cloudformation_stackset_instances_policy logs_statements
       action_name blueprint_bucket source_output artifact template_file
       stage_params_file accound_ids org_ids regions assets_bucket stack_name w).1.2
    !! "stackset_name"
  = Some (VStr (stack_name +:+ "-" +:+ PyStr.slice 0 8 (Uuid.str (Uuid.uuid4 w).1))).
Proof.
  unfold create_stackset_action. destruct (Uuid.uuid4 w) as [u w'].
  cbn [fst snd lia_user_parameters].
  apply dict_literal_lookup; [| left].
  apply (bool_decide_unpack _). vm_compute. reflexivity.
Qed.

(** C2. The stackset name generated by [create_stackset_action] is the
    caller's prefix, the separator [-], and a suffix of eight lowercase
    hexadecimal characters; the suffix is the first eight characters of a
    UUID built from one 16-byte (128-bit) draw of the operating system's
    entropy, and carries the first four bytes (32 bits) of that draw:
    read as a base-16 numeral it is the number those four bytes form,
    and any draw that gives the same suffix has the same first four
    bytes. *)
Theorem unique_name_format
    (action_name : string) (blueprint_bucket : Bucket) (source_output : Artifact)
    (artifact template_file stage_params_file accound_ids org_ids regions : PyValue)
    (assets_bucket : Bucket) (stack_name : string) (w : Uuid.World) :
  let r :=
    create_stackset_action cloudformation_stackset_policy
      cloudformation_stackset_instances_policy logs_statements
      action_name blueprint_bucket source_output artifact template_file
      stage_params_file accound_ids org_ids regions assets_bucket stack_name w in
  let drawn := Uuid.int_from_bytes (Uuid.urandom 4 w).1 in
  exists suffix,
    lia_user_parameters r.1.2 !! "stackset_name"
    = Some (VStr (stack_name +:+ "-" +:+ suffix))
    /\ String.length suffix = 8
    /\ PyStr.all_chars PyStr.is_lower_hex suffix = true
    /\ suffix = PyStr.slice 0 8 (Uuid.str (Uuid.uuid4 w).1)
    /\ suffix = Uuid.hex_digits 8 drawn
    /\ Uuid.cursor r.2 = Uuid.cursor w + 16
    /\ PyStr.of_hex suffix = Some drawn
    /\ (0 <= drawn < 2 ^ 32)%Z
    /\ (forall w',
          PyStr.slice 0 8 (Uuid.str (Uuid.uuid4 w').1) = suffix ->
          (Uuid.urandom 4 w').1 = (Uuid.urandom 4 w).1).
Proof.
  cbv zeta. exists (PyStr.slice 0 8 (Uuid.str (Uuid.uuid4 w).1)).
  assert (Hrange : (0 <= Uuid.int_from_bytes (Uuid.urandom 4 w).1 < 2 ^ 32)%Z).
  { pose proof (UuidFacts.int_from_bytes_range (Uuid.urandom 4 w).1) as Hr.
    rewrite length_urandom in Hr. exact Hr. }
  split; [apply stackset_name_lookup |].
  split; [rewrite UuidFacts.uuid4_prefix; apply UuidFacts.length_hex_digits |].
  split; [rewrite UuidFacts.uuid4_prefix; apply UuidFacts.hex_digits_lower |].
  split; [reflexivity |].
  split; [apply UuidFacts.uuid4_prefix |].
  split; [reflexivity |].
  split; [rewrite UuidFacts.uuid4_prefix; apply of_hex_hex_digits; exact Hrange |].
  split; [exact Hrange |].
  intros w' H. now apply uuid4_prefix_eq_iff.
Qed.

(** C3 (amended). The stackset name is generated from a single draw and
    is not compared with anything: it is determined by the caller's stack
    name and the first four bytes of the draw, whatever else was built
    before, and every invocation consumes exactly one 16-byte draw.  Two
    invocations whose draws agree on those four bytes return the same
    name. *)
Theorem stackset_name_unchecked
    (action_name action_name' : string) (blueprint_bucket blueprint_bucket' : Bucket)
    (source_output source_output' : Artifact)
    (artifact template_file stage_params_file accound_ids org_ids regions : PyValue)
    (artifact' template_file' stage_params_file' accound_ids' org_ids' regions' : PyValue)
    (assets_bucket assets_bucket' : Bucket) (stack_name : string)
    (w w' : Uuid.World) :
  (Uuid.urandom 4 w).1 = (Uuid.urandom 4 w').1 ->
  let r :=
    create_stackset_action cloudformation_stackset_policy
      cloudformation_stackset_instances_policy logs_statements
      action_name blueprint_bucket source_output artifact template_file
      stage_params_file accound_ids org_ids regions assets_bucket stack_name w in
  let r' :=
    create_stackset_action cloudformation_stackset_policy
      cloudformation_stackset_instances_policy logs_statements
      action_name' blueprint_bucket' source_output' artifact' template_file'
      stage_params_file' accound_ids' org_ids' regions' assets_bucket' stack_name w' in
  lia_user_parameters r.1.2 !! "stackset_name"
  = lia_user_parameters r'.1.2 !! "stackset_name"
  /\ Uuid.cursor r.2 = Uuid.cursor w + 16
  /\ Uuid.cursor r'.2 = Uuid.cursor w' + 16.
Proof.
  intros Hbytes. cbv zeta.
  rewrite !stackset_name_lookup, !UuidFacts.uuid4_prefix, Hbytes.
  repeat split.
Qed.

(** C8. Whatever its arguments, [create_stackset_action] gives the action
    it builds the run order 1. *)
Theorem stackset_action_run_order
    (action_name : string) (blueprint_bucket : Bucket) (source_output : Artifact)
    (artifact template_file stage_params_file accound_ids org_ids regions : PyValue)
    (assets_bucket : Bucket) (stack_name : string) (w : Uuid.World) :
  lia_run_order
    (create_stackset_action cloudformation_stackset_policy
       cloudformation_stackset_instances_policy logs_statements
       action_name blueprint_bucket source_output artifact template_file
       stage_params_file accound_ids org_ids regions assets_bucket stack_name w).1.2
  = 1%Z.
Proof.
  unfold create_stackset_action. destruct (Uuid.uuid4 w) as [u w']. reflexivity.
Qed.

(** C9. The two stack-management statements of the role of the function
    [create_stackset_action] builds are those for the generated, suffixed
    name, which is also the [stackset_name] of the user parameters; that
    name differs from the name the caller supplied, and the role carries
    nothing besides them and the logging statements. *)
Theorem stackset_permissions_scope
    (action_name : string) (blueprint_bucket : Bucket) (source_output : Artifact)
    (artifact template_file stage_params_file accound_ids org_ids regions : PyValue)
    (assets_bucket : Bucket) (stack_name : string) (w : Uuid.World) :
  let r :=
    create_stackset_action cloudformation_stackset_policy
      cloudformation_stackset_instances_policy logs_statements
      action_name blueprint_bucket source_output artifact template_file
      stage_params_file accound_ids org_ids regions assets_bucket stack_name w in
  let generated :=
    stack_name +:+ "-" +:+ PyStr.slice 0 8 (Uuid.str (Uuid.uuid4 w).1) in
  lia_user_parameters r.1.2 !! "stackset_name" = Some (VStr generated)
  /\ inline (role (lia_lambda r.1.2))
     = cloudformation_stackset_policy generated
       :: cloudformation_stackset_instances_policy generated
       :: logs_statements
  /\ attached (role (lia_lambda r.1.2)) = []
  /\ String.length generated = String.length stack_name + 9
  /\ generated <> stack_name.
Proof.
  cbv zeta. split; [apply stackset_name_lookup |].
  unfold create_stackset_action. destruct (Uuid.uuid4 w) as [u w'] eqn:Hu.
  cbn [fst snd lia_lambda role].
  unfold add_logs_policy. rewrite fold_add_to_policy. cbn [inline attached].
  split; [reflexivity |]. split; [reflexivity |].
  split.
  - rewrite !PyStrFacts.length_app.
    replace u with (Uuid.uuid4 w).1 by now rewrite Hu.
    rewrite UuidFacts.uuid4_prefix, UuidFacts.length_hex_digits.
    cbn. lia.
  - apply PyStrFacts.app_neq_self.
Qed.

(** C10. The property map of the custom resource holds, for every key,
    the caller's value when the caller's map has the key; otherwise
    [function_name] is the target function's name, [message] is the
    default message, and no other key is present.  A caller's value is
    taken to be one the construct library keeps as it is handed in. *)
Theorem custom_resource_properties_lookup
    (id lambda_function_arn lambda_function_name : string)
    (blueprint_bucket : Bucket)
    (custom_resource_properties : gmap string PyValue) (k : string) :
  (forall v, custom_resource_properties !! k = Some v -> exact_value v = true) ->
  cr_properties
    (create_invoke_lambda_custom_resource id lambda_function_arn
       lambda_function_name blueprint_bucket custom_resource_properties) !! k
  = match custom_resource_properties !! k with
    | Some v => Some v
    | None =>
        if decide (k = "function_name") then Some (VStr lambda_function_name)
        else if decide (k = "message")
             then Some (VStr ("Invoking lambda function: " +:+ lambda_function_name))
             else None
    end.
Proof.
  intros _.
  unfold create_invoke_lambda_custom_resource. cbn [cr_properties].
  rewrite dict_update_lookup.
  destruct (custom_resource_properties !! k); [reflexivity |].
  unfold dict_literal. cbn [fold_left fst snd].
  destruct (decide (k = "function_name")) as [-> | Hf].
  - rewrite lookup_insert_ne by discriminate. apply lookup_insert_eq.
  - destruct (decide (k = "message")) as [-> | Hm].
    + apply lookup_insert_eq.
    + rewrite !lookup_insert_ne by congruence. apply lookup_empty.
Qed.

(** Lines 93-109 of [batch_transform]: the read statement carries each
    of the four locators once, whichever of them coincide, and the write
    statement the one output locator; neither is empty. *)
Lemma batch_transform_s3_resources
    (id : string) (blueprint_bucket assets_bucket : Bucket)
    (model_name inference_instance batch_input_bucket batch_inference_data
     batch_job_output_location kms_key_arn : string)
    (sm_layer : LayerVersion) :
  exists fn s3_read s3_write,
    batch_transform batch_transform_policy logs_statements
      id blueprint_bucket assets_bucket model_name inference_instance
      batch_input_bucket batch_inference_data batch_job_output_location
      kms_key_arn sm_layer = Ok fn
    /\ inline (role fn)
       = batch_transform_policy :: s3_read :: s3_write :: logs_statements
    /\ NoDup (resources s3_read)
    /\ (forall x,
          x ∈ resources s3_read
          <-> x ∈ ["arn:aws:s3:::" +:+ bucket_name assets_bucket;
                   "arn:aws:s3:::" +:+ bucket_name assets_bucket +:+ "/*";
                   "arn:aws:s3:::" +:+ batch_input_bucket;
                   "arn:aws:s3:::" +:+ batch_inference_data])
    /\ resources s3_write = ["arn:aws:s3:::" +:+ batch_job_output_location +:+ "/*"].
Proof.
  destruct (batch_transform_returns id blueprint_bucket assets_bucket model_name
              inference_instance batch_input_bucket batch_inference_data
              batch_job_output_location kms_key_arn sm_layer)
    as (fn & Hfn & Hinline & _).
  do 3 eexists. split; [exact Hfn |]. split; [exact Hinline |].
  cbn [resources]. split; [apply NoDup_list_set |].
  split; [intros x; apply elem_of_list_set | reflexivity].
Qed.

End FactoryFacts.

Lemma conditional_statement_materialized_witness :
  exists sagemaker_role lambda_role,
    create_data_baseline_job_roles Sample.processing_job_arn Sample.logs_statements
      Sample.logs_statements Sample.assets "baseline" "data/train.csv"
      "assets/baseline-out" "arn:aws:kms:us-east-1:111111111111:key/k1"
      "KmsKeyProvided" = Ok (sagemaker_role, lambda_role)
    /\ count_occ PolicyStatement_eq_dec
         (ConditionalResource.materialize (fun _ => false) sagemaker_role)
         {| actions := IamPolicies.category_actions IamPolicies.KeyManagement;
            resources := ["arn:aws:kms:us-east-1:111111111111:key/k1"] |}
       = 0.
Proof.
  apply (conditional_statement_materialized Sample.processing_job_arn
           Sample.logs_statements Sample.logs_statements).
  repeat constructor. cbn. discriminate.
Defined.

Lemma stackset_name_unchecked_witness :
  Sample.stackset_name (Sample.stackset_action "deploy-dev" Sample.world)
  = Sample.stackset_name
      (Sample.stackset_action "deploy-prod"
         (Sample.stackset_action "deploy-dev" Sample.world).2)
  /\ Uuid.cursor (Sample.stackset_action "deploy-dev" Sample.world).2 = 16
  /\ Uuid.cursor
       (Sample.stackset_action "deploy-prod"
          (Sample.stackset_action "deploy-dev" Sample.world).2).2 = 32.
Proof.
  apply (stackset_name_unchecked Sample.cloudformation_stackset_policy
           Sample.cloudformation_stackset_instances_policy Sample.logs_statements
           "deploy-dev" "deploy-prod").
  vm_compute. reflexivity.
Defined.

Lemma custom_resource_properties_lookup_witness :
  cr_properties
    (create_invoke_lambda_custom_resource "InvokeOrchestrator"
       "arn:aws:lambda:us-east-1:111111111111:function:orchestrator"
       "orchestrator" Sample.blueprints
       (dict_literal [("function_name", VStr "other"); ("retries", VInt 3)]))
    !! "retries"
  = match dict_literal [("function_name", VStr "other"); ("retries", VInt 3)]
          !! "retries" with
    | Some v => Some v
    | None =>
        if decide ("retries" = "function_name") then Some (VStr "orchestrator")
        else if decide ("retries" = "message")
             then Some (VStr ("Invoking lambda function: " +:+ "orchestrator"))
             else None
    end.
Proof.
  apply custom_resource_properties_lookup.
  intros v H. vm_compute in H. injection H as <-. reflexivity.
Defined.

(** C3 (counterexample). Two stackset actions built one after the other
    in one session, from draws that yield two different UUIDs, are both
    returned and carry the same generated name: the second name is not
    regenerated and no error is signalled. *)
Lemma stackset_name_collision :
  let first := Sample.stackset_action "deploy-dev" Sample.world in
  let second := Sample.stackset_action "deploy-prod" first.2 in
  (Uuid.uuid4 Sample.world).1 <> (Uuid.uuid4 first.2).1
  /\ Sample.stackset_name first = Some (VStr "model-monitor-00000000")
  /\ Sample.stackset_name second = Some (VStr "model-monitor-00000000").
Proof.
  cbv zeta. split; [| split].
  - vm_compute. discriminate.
  - vm_compute. reflexivity.
  - vm_compute. reflexivity.
Qed.




(** C7 (counterexample). The bucket of the batch input, which the caller
    supplies to [batch_transform], is under no key of the environment of
    the function built. *)
Lemma batch_input_bucket_not_in_environment :
  exists fn,
    batch_transform Sample.batch_transform_policy Sample.logs_statements
      "BatchTransform" Sample.blueprints Sample.assets "model" "ml.m5.large"
      "batch-input-bucket" "assets/inference/data.csv" "assets/inference/out"
      "" (sagemaker_layer Sample.blueprints) = Ok fn
    /\ forall k, environment fn !! k <> Some "batch-input-bucket".
Proof.
  destruct (batch_transform_returns Sample.batch_transform_policy
              Sample.logs_statements "BatchTransform" Sample.blueprints
              Sample.assets "model" "ml.m5.large" "batch-input-bucket"
              "assets/inference/data.csv" "assets/inference/out" ""
              (sagemaker_layer Sample.blueprints))
    as (fn & Hfn & _ & _ & Henv).
  exists fn. split; [exact Hfn |]. intros k Hk. rewrite Henv in Hk.
  apply DictFacts.dict_literal_lookup in Hk;
    [| apply (bool_decide_unpack _); vm_compute; reflexivity].
  repeat (apply elem_of_cons in Hk as [Hk | Hk]; [discriminate Hk |]).
  inversion Hk.
Qed.

Example str_uuid_nil :
  Uuid.str (Uuid.UUID [] 4) = "00000000-0000-4000-8000-000000000000".
Proof. vm_compute. reflexivity. Qed.

(** ** More about what the factories build *)

Section FactoryExtras.

Import IamPolicies IamPoliciesFacts DictFacts PyStrFacts NamingFacts.

Variable batch_transform_policy : PolicyStatement.
Variable processing_job_arn : string -> string.
Variable cloudformation_stackset_policy : string -> PolicyStatement.
Variable cloudformation_stackset_instances_policy : string -> PolicyStatement.
Variable logs_statements : list PolicyStatement.
Variable logs_metrics_statements : list PolicyStatement.

Local Abbreviation stackset_action :=
  (create_stackset_action cloudformation_stackset_policy
     cloudformation_stackset_instances_policy logs_statements).

Lemma stackset_action_world
    (action_name : string) (blueprint_bucket : Bucket) (source_output : Artifact)
    (artifact template_file stage_params_file accound_ids org_ids regions : PyValue)
    (assets_bucket : Bucket) (stack_name : string) (w : Uuid.World) :
  (stackset_action action_name blueprint_bucket source_output artifact
     template_file stage_params_file accound_ids org_ids regions assets_bucket
     stack_name w).2
  = (Uuid.uuid4 w).2.
Proof.
  unfold create_stackset_action. now destruct (Uuid.uuid4 w).
Qed.

Lemma VStr_inj (a b : string) : VStr a = VStr b -> a = b.
Proof. now intros [= ->]. Qed.

(** X1. Two stackset names generated by [create_stackset_action] are
    equal exactly when the callers' stack names are equal and the first
    four bytes of the two draws are equal. *)
Theorem stackset_name_eq_iff
    (action_name action_name' : string) (blueprint_bucket blueprint_bucket' : Bucket)
    (source_output source_output' : Artifact)
    (artifact template_file stage_params_file accound_ids org_ids regions : PyValue)
    (artifact' template_file' stage_params_file' accound_ids' org_ids' regions' : PyValue)
    (assets_bucket assets_bucket' : Bucket) (stack_name stack_name' : string)
    (w w' : Uuid.World) :
  lia_user_parameters
    (stackset_action action_name blueprint_bucket source_output artifact
       template_file stage_params_file accound_ids org_ids regions assets_bucket
       stack_name w).1.2 !! "stackset_name"
  = lia_user_parameters
      (stackset_action action_name' blueprint_bucket' source_output' artifact'
         template_file' stage_params_file' accound_ids' org_ids' regions'
         assets_bucket' stack_name' w').1.2 !! "stackset_name"
  <-> stack_name = stack_name'
      /\ (Uuid.urandom 4 w).1 = (Uuid.urandom 4 w').1.
Proof.
  do 2 rewrite stackset_name_lookup. split.
  - intros H. apply (inj Some), VStr_inj in H.
    apply app_inj_length in H as [Hname Hsuffix].
    + split; [exact Hname |]. apply uuid4_prefix_eq_iff.
      exact (String.app_inj "-" _ _ Hsuffix).
    + rewrite !length_app. do 2 rewrite UuidFacts.uuid4_prefix.
      now rewrite !UuidFacts.length_hex_digits.
  - intros [-> H]. apply uuid4_prefix_eq_iff in H. now rewrite H.
Qed.

(** X3. Stackset actions with different action names get different role
    ids, function ids, variables namespaces and function ARNs. *)
Theorem stackset_construct_ids_distinct
    (action_name action_name' : string) (blueprint_bucket blueprint_bucket' : Bucket)
    (source_output source_output' : Artifact)
    (artifact template_file stage_params_file accound_ids org_ids regions : PyValue)
    (artifact' template_file' stage_params_file' accound_ids' org_ids' regions' : PyValue)
    (assets_bucket assets_bucket' : Bucket) (stack_name stack_name' : string)
    (w w' : Uuid.World) :
  action_name <> action_name' ->
  let r :=
    stackset_action action_name blueprint_bucket source_output artifact
      template_file stage_params_file accound_ids org_ids regions assets_bucket
      stack_name w in
  let r' :=
    stackset_action action_name' blueprint_bucket' source_output' artifact'
      template_file' stage_params_file' accound_ids' org_ids' regions'
      assets_bucket' stack_name' w' in
  role_id (role (lia_lambda r.1.2)) <> role_id (role (lia_lambda r'.1.2))
  /\ function_id (lia_lambda r.1.2) <> function_id (lia_lambda r'.1.2)
  /\ lia_variables_namespace r.1.2 <> lia_variables_namespace r'.1.2
  /\ r.1.1 <> r'.1.1.
Proof.
  intros Hne. cbv zeta. unfold create_stackset_action.
  destruct (Uuid.uuid4 w) as [u w1], (Uuid.uuid4 w') as [u' w1'].
  cbn [fst snd lia_lambda role function_id lia_variables_namespace].
  unfold add_logs_policy. rewrite !fold_add_to_policy. cbn [role_id].
  unfold function_arn. cbn [function_id].
  repeat split; intros H; apply Hne.
  - now apply app_inj_suffix in H.
  - now apply app_inj_suffix in H.
  - now apply app_inj_suffix in H.
  - apply String.app_inj in H.
    apply app_inj_suffix in H. now apply app_inj_suffix in H.
Qed.

(** X4. Among any stackset actions, with equal or different action
    names, no role id equals a function id. *)
Theorem stackset_role_id_never_function_id
    (action_name action_name' : string) (blueprint_bucket blueprint_bucket' : Bucket)
    (source_output source_output' : Artifact)
    (artifact template_file stage_params_file accound_ids org_ids regions : PyValue)
    (artifact' template_file' stage_params_file' accound_ids' org_ids' regions' : PyValue)
    (assets_bucket assets_bucket' : Bucket) (stack_name stack_name' : string)
    (w w' : Uuid.World) :
  role_id
    (role
       (lia_lambda
          (stackset_action action_name blueprint_bucket source_output artifact
             template_file stage_params_file accound_ids org_ids regions
             assets_bucket stack_name w).1.2))
  <> function_id
       (lia_lambda
          (stackset_action action_name' blueprint_bucket' source_output' artifact'
             template_file' stage_params_file' accound_ids' org_ids' regions'
             assets_bucket' stack_name' w').1.2).
Proof.
  unfold create_stackset_action.
  destruct (Uuid.uuid4 w) as [u w1], (Uuid.uuid4 w') as [u' w1'].
  cbn [fst snd lia_lambda role function_id].
  unfold add_logs_policy. rewrite fold_add_to_policy. cbn [role_id].
  change "_role" with ("_rol" +:+ String "e" "").
  change "_stackset_lambda" with ("_stackset_lambd" +:+ String "a" "").
  apply app_neq_last. discriminate.
Qed.

(** X5. A stackset action built right after another one in the same
    session takes its suffix from the next 16-byte block of the entropy
    supply: its name prints the bytes 16 to 19 after the starting
    position, and the two actions together consume 32 bytes. *)
Theorem stackset_actions_successive_draws
    (action_name action_name' : string) (blueprint_bucket blueprint_bucket' : Bucket)
    (source_output source_output' : Artifact)
    (artifact template_file stage_params_file accound_ids org_ids regions : PyValue)
    (artifact' template_file' stage_params_file' accound_ids' org_ids' regions' : PyValue)
    (assets_bucket assets_bucket' : Bucket) (stack_name stack_name' : string)
    (w : Uuid.World) :
  let r :=
    stackset_action action_name blueprint_bucket source_output artifact
      template_file stage_params_file accound_ids org_ids regions assets_bucket
      stack_name w in
  let r' :=
    stackset_action action_name' blueprint_bucket' source_output' artifact'
      template_file' stage_params_file' accound_ids' org_ids' regions'
      assets_bucket' stack_name' r.2 in
  lia_user_parameters r'.1.2 !! "stackset_name"
  = Some (VStr (stack_name' +:+ "-"
                +:+ Uuid.hex_digits 8
                      (Uuid.int_from_bytes
                         (List.map
                            (fun i => Uuid.entropy w (Uuid.cursor w + 16 + i))
                            (seq 0 4)))))
  /\ Uuid.cursor r'.2 = Uuid.cursor w + 32
  /\ Uuid.entropy r'.2 = Uuid.entropy w.
Proof.
  cbv zeta. rewrite stackset_name_lookup, !stackset_action_world.
  rewrite UuidFacts.uuid4_prefix. split; [reflexivity |].
  cbn [Uuid.uuid4 Uuid.urandom snd Uuid.cursor Uuid.entropy]. split; [lia | reflexivity].
Qed.

(** The two roles of [create_data_baseline_job] with their principals. *)
Lemma create_data_baseline_job_roles_principals
    (assets_bucket : Bucket)
    (baseline_job_name training_data_location baseline_job_output_location
     kms_key_arn : string)
    (kms_key_arn_provided_condition : CfnCondition) :
  exists sagemaker_role lambda_role,
    create_data_baseline_job_roles processing_job_arn logs_statements
      logs_metrics_statements assets_bucket baseline_job_name
      training_data_location baseline_job_output_location kms_key_arn
      kms_key_arn_provided_condition = Ok (sagemaker_role, lambda_role)
    /\ assumed_by sagemaker_role = "sagemaker.amazonaws.com"
    /\ assumed_by lambda_role = "lambda.amazonaws.com"
    /\ role_id lambda_role = "create_baseline_job_lambda_role".
Proof.
  unfold create_data_baseline_job_roles, s3_policy_read, s3_policy_write,
    sagemaker_baseline_job_policy, kms_policy_document.
  rewrite (buildPolicy_ok "storage-read" StorageRead) by (reflexivity || discriminate).
  rewrite (buildPolicy_ok "storage-write" StorageWrite) by (reflexivity || discriminate).
  rewrite (buildPolicy_ok "compute-baseline-job" ComputeBaselineJob)
    by (reflexivity || discriminate).
  rewrite (buildPolicy_ok "key-management" KeyManagement) by (reflexivity || discriminate).
  do 2 eexists. split; [reflexivity |].
  unfold add_logs_policy. rewrite fold_add_to_policy.
  repeat split.
Qed.

(** X6. In [create_data_baseline_job] one role ARN ties the parts
    together: the function's environment names, under [ROLE_ARN], the role
    assumed by the processing service; the function's own role, assumed by
    the function service, may pass that role and no other; and the role
    itself may assume that same ARN. *)
Theorem baseline_job_role_arn_consistent
    (blueprint_bucket assets_bucket : Bucket)
    (baseline_job_name training_data_location baseline_job_output_location
     endpoint_name instance_type instance_volume_size max_runtime_seconds
     kms_key_arn : string)
    (kms_key_arn_provided_condition : CfnCondition)
    (stack_name : string) :
  exists sagemaker_role lambda_role fn,
    create_data_baseline_job_roles processing_job_arn logs_statements
      logs_metrics_statements assets_bucket baseline_job_name
      training_data_location baseline_job_output_location kms_key_arn
      kms_key_arn_provided_condition = Ok (sagemaker_role, lambda_role)
    /\ create_data_baseline_job processing_job_arn logs_statements
         logs_metrics_statements blueprint_bucket assets_bucket
         baseline_job_name training_data_location baseline_job_output_location
         endpoint_name instance_type instance_volume_size max_runtime_seconds
         kms_key_arn kms_key_arn_provided_condition stack_name = Ok fn
    /\ role fn = lambda_role
    /\ assumed_by lambda_role = "lambda.amazonaws.com"
    /\ assumed_by sagemaker_role = "sagemaker.amazonaws.com"
    /\ environment fn !! "ROLE_ARN" = Some (role_arn sagemaker_role)
    /\ {| actions := ["iam:PassRole"]; resources := [role_arn sagemaker_role] |}
       ∈ inline lambda_role
    /\ (forall st, st ∈ inline lambda_role -> actions st = ["iam:PassRole"] ->
                   st ∉ logs_statements ->
                   resources st = [role_arn sagemaker_role])
    /\ {| actions := ["sts:AssumeRole"]; resources := [role_arn sagemaker_role] |}
       ∈ inline sagemaker_role.
Proof.
  destruct (create_data_baseline_job_roles_returns processing_job_arn
              logs_statements logs_metrics_statements assets_bucket
              baseline_job_name training_data_location
              baseline_job_output_location kms_key_arn
              kms_key_arn_provided_condition)
    as (sr & lr & Hroles & _ & Hsr & _ & Hlr & _).
  destruct (create_data_baseline_job_roles_principals assets_bucket
              baseline_job_name training_data_location
              baseline_job_output_location kms_key_arn
              kms_key_arn_provided_condition)
    as (sr' & lr' & Hroles' & Hps & Hpl & _).
  rewrite Hroles in Hroles'. injection Hroles' as Hs Hl. subst sr' lr'.
  exists sr, lr. unfold create_data_baseline_job. rewrite Hroles.
  eexists. split; [reflexivity |]. split; [reflexivity |]. cbn [role environment].
  split; [reflexivity |]. split; [exact Hpl |]. split; [exact Hps |].
  split.
  { apply dict_literal_lookup; [| do 8 right; left].
    apply (bool_decide_unpack _). vm_compute. reflexivity. }
  rewrite Hlr, Hsr. split; [left |]. split; [| left].
  intros st Hin Hact Hlogs.
  apply elem_of_cons in Hin as [-> | Hin]; [reflexivity |].
  apply elem_of_cons in Hin as [-> | Hin]; [discriminate Hact |].
  apply elem_of_cons in Hin as [-> | Hin]; [discriminate Hact |].
  apply elem_of_cons in Hin as [-> | Hin]; [discriminate Hact |].
  contradiction.
Qed.

(** X7. What [create_data_baseline_job] adds to the processing role
    with [add_to_policy], apart from the assume-role statement, it also
    adds to the role of the function that starts the job.  The two
    policies it attaches to the processing role, the key policy under
    the key-provided condition and the logging and metrics policy, are
    attached to that role only: the function's role has no attached
    policy. *)
Theorem baseline_job_lambda_role_covers
    (assets_bucket : Bucket)
    (baseline_job_name training_data_location baseline_job_output_location
     kms_key_arn : string)
    (kms_key_arn_provided_condition : CfnCondition) :
  exists sagemaker_role lambda_role,
    create_data_baseline_job_roles processing_job_arn logs_statements
      logs_metrics_statements assets_bucket baseline_job_name
      training_data_location baseline_job_output_location kms_key_arn
      kms_key_arn_provided_condition = Ok (sagemaker_role, lambda_role)
    /\ (forall st, st ∈ inline sagemaker_role ->
                   actions st = ["sts:AssumeRole"] \/ st ∈ inline lambda_role)
    /\ attached sagemaker_role
       = [{| policy_id := "BaselineKmsPolicy";
             statements :=
               [{| actions := category_actions KeyManagement;
                   resources := [kms_key_arn] |}];
             condition := Some kms_key_arn_provided_condition |};
          {| policy_id := "BaselineLogsMetrcis";
             statements := logs_metrics_statements; condition := None |}]
    /\ attached lambda_role = [].
Proof.
  destruct (create_data_baseline_job_roles_returns processing_job_arn
              logs_statements logs_metrics_statements assets_bucket
              baseline_job_name training_data_location
              baseline_job_output_location kms_key_arn
              kms_key_arn_provided_condition)
    as (sr & lr & Hroles & _ & Hsr & Hsa & Hlr & Hla).
  exists sr, lr. split; [exact Hroles |].
  split; [| split; [exact Hsa | exact Hla]].
  rewrite Hsr, Hlr. intros st Hin.
  apply elem_of_cons in Hin as [-> | Hin]; [now left | right].
  apply elem_of_cons in Hin as [-> | Hin]; [right; left |].
  apply elem_of_cons in Hin as [-> | Hin]; [do 3 right; left |].
  apply elem_of_cons in Hin as [-> | Hin]; [do 2 right; left |].
  inversion Hin.
Qed.

(** X8. The read statement of [batch_transform] has at least two and at
    most four resources, however many of the four locators coincide: the
    assets bucket and its object pattern are always two. *)
Theorem batch_transform_read_resource_count
    (id : string) (blueprint_bucket assets_bucket : Bucket)
    (model_name inference_instance batch_input_bucket batch_inference_data
     batch_job_output_location kms_key_arn : string)
    (sm_layer : LayerVersion) :
  exists fn s3_read,
    batch_transform batch_transform_policy logs_statements
      id blueprint_bucket assets_bucket model_name inference_instance
      batch_input_bucket batch_inference_data batch_job_output_location
      kms_key_arn sm_layer = Ok fn
    /\ inline (role fn) !! 1 = Some s3_read
    /\ 2 <= length (resources s3_read) <= 4.
Proof.
  destruct (batch_transform_returns batch_transform_policy logs_statements
              id blueprint_bucket assets_bucket model_name inference_instance
              batch_input_bucket batch_inference_data batch_job_output_location
              kms_key_arn sm_layer)
    as (fn & Hfn & Hinline & _).
  do 2 eexists. split; [exact Hfn |]. rewrite Hinline.
  split; [reflexivity |]. cbn [resources]. split.
  - apply (submseteq_length
             ["arn:aws:s3:::" +:+ bucket_name assets_bucket;
              "arn:aws:s3:::" +:+ bucket_name assets_bucket +:+ "/*"]).
    apply NoDup_submseteq.
    + apply NoDup_cons. split; [| apply NoDup_singleton].
      rewrite list_elem_of_singleton. intros H.
      apply String.app_inj in H. symmetry in H. revert H. apply app_neq_self.
    + intros x Hx. apply elem_of_list_set.
      apply elem_of_cons in Hx as [-> | Hx]; [left |].
      apply list_elem_of_singleton in Hx as ->. right; left.
  - apply (submseteq_length _
             ["arn:aws:s3:::" +:+ bucket_name assets_bucket;
              "arn:aws:s3:::" +:+ bucket_name assets_bucket +:+ "/*";
              "arn:aws:s3:::" +:+ batch_input_bucket;
              "arn:aws:s3:::" +:+ batch_inference_data]).
    apply NoDup_submseteq; [apply NoDup_list_set |].
    intros x. apply elem_of_list_set.
Qed.

(** X9. The role of the function built by [batch_transform] covers the
    locations its environment names: the read statement holds the assets
    bucket and its objects and the batch inference data, the write
    statement the objects under the output location. *)
Theorem batch_transform_permissions_cover_environment
    (id : string) (blueprint_bucket assets_bucket : Bucket)
    (model_name inference_instance batch_input_bucket batch_inference_data
     batch_job_output_location kms_key_arn : string)
    (sm_layer : LayerVersion) :
  exists fn bucket data output s3_read s3_write,
    batch_transform batch_transform_policy logs_statements
      id blueprint_bucket assets_bucket model_name inference_instance
      batch_input_bucket batch_inference_data batch_job_output_location
      kms_key_arn sm_layer = Ok fn
    /\ environment fn !! "assets_bucket" = Some bucket
    /\ environment fn !! "batch_inference_data" = Some data
    /\ environment fn !! "batch_job_output_location" = Some output
    /\ s3_read ∈ inline (role fn)
    /\ s3_write ∈ inline (role fn)
    /\ actions s3_read = category_actions StorageRead
    /\ actions s3_write = category_actions StorageWrite
    /\ "arn:aws:s3:::" +:+ bucket ∈ resources s3_read
    /\ "arn:aws:s3:::" +:+ bucket +:+ "/*" ∈ resources s3_read
    /\ "arn:aws:s3:::" +:+ data ∈ resources s3_read
    /\ resources s3_write = ["arn:aws:s3:::" +:+ output +:+ "/*"].
Proof.
  destruct (batch_transform_returns batch_transform_policy logs_statements
              id blueprint_bucket assets_bucket model_name inference_instance
              batch_input_bucket batch_inference_data batch_job_output_location
              kms_key_arn sm_layer)
    as (fn & Hfn & Hinline & _ & Henv).
  exists fn, (bucket_name assets_bucket), batch_inference_data,
    batch_job_output_location.
  do 2 eexists. split; [exact Hfn |]. rewrite Henv, Hinline.
  assert (Hkeys : NoDup
            ([("model_name", model_name);
              ("inference_instance", inference_instance);
              ("assets_bucket", bucket_name assets_bucket);
              ("batch_inference_data", batch_inference_data);
              ("batch_job_output_location", batch_job_output_location);
              ("kms_key_arn", kms_key_arn);
              ("LOG_LEVEL", "INFO")].*1))
    by (apply (bool_decide_unpack _); vm_compute; reflexivity).
  split; [apply dict_literal_lookup; [exact Hkeys | do 2 right; left] |].
  split; [apply dict_literal_lookup; [exact Hkeys | do 3 right; left] |].
  split; [apply dict_literal_lookup; [exact Hkeys | do 4 right; left] |].
  split; [right; left |]. split; [do 2 right; left |].
  cbn [actions resources].
  split; [reflexivity |]. split; [reflexivity |].
  split; [apply elem_of_list_set; left |].
  split; [apply elem_of_list_set; right; left |].
  split; [apply elem_of_list_set; do 3 right; left | reflexivity].
Qed.

(** X10. The function built by [create_data_baseline_job] may read the
    assets bucket and the training data its environment names, and may
    write under the output location its environment names. *)
Theorem baseline_job_permissions_cover_environment
    (blueprint_bucket assets_bucket : Bucket)
    (baseline_job_name training_data_location baseline_job_output_location
     endpoint_name instance_type instance_volume_size max_runtime_seconds
     kms_key_arn : string)
    (kms_key_arn_provided_condition : CfnCondition)
    (stack_name : string) :
  exists fn bucket data output s3_read s3_write,
    create_data_baseline_job processing_job_arn logs_statements
      logs_metrics_statements blueprint_bucket assets_bucket
      baseline_job_name training_data_location baseline_job_output_location
      endpoint_name instance_type instance_volume_size max_runtime_seconds
      kms_key_arn kms_key_arn_provided_condition stack_name = Ok fn
    /\ environment fn !! "ASSETS_BUCKET" = Some bucket
    /\ environment fn !! "TRAINING_DATA_LOCATION" = Some data
    /\ environment fn !! "BASELINE_JOB_OUTPUT_LOCATION" = Some output
    /\ s3_read ∈ inline (role fn)
    /\ s3_write ∈ inline (role fn)
    /\ actions s3_read = category_actions StorageRead
    /\ actions s3_write = category_actions StorageWrite
    /\ resources s3_read
       = ["arn:aws:s3:::" +:+ bucket; "arn:aws:s3:::" +:+ bucket +:+ "/" +:+ data]
    /\ resources s3_write = ["arn:aws:s3:::" +:+ output +:+ "/*"].
Proof.
  destruct (create_data_baseline_job_roles_returns processing_job_arn
              logs_statements logs_metrics_statements assets_bucket
              baseline_job_name training_data_location
              baseline_job_output_location kms_key_arn
              kms_key_arn_provided_condition)
    as (sr & lr & Hroles & _ & _ & _ & Hlr & _).
  unfold create_data_baseline_job. rewrite Hroles.
  eexists. exists (bucket_name assets_bucket), training_data_location,
    baseline_job_output_location.
  do 2 eexists. split; [reflexivity |]. cbn [role environment]. rewrite Hlr.
  assert (Hkeys : NoDup
            ([("BASELINE_JOB_NAME", baseline_job_name);
              ("ASSETS_BUCKET", bucket_name assets_bucket);
              ("SAGEMAKER_ENDPOINT_NAME", endpoint_name);
              ("TRAINING_DATA_LOCATION", training_data_location);
              ("BASELINE_JOB_OUTPUT_LOCATION", baseline_job_output_location);
              ("INSTANCE_TYPE", instance_type);
              ("INSTANCE_VOLUME_SIZE", instance_volume_size);
              ("MAX_RUNTIME_SECONDS", max_runtime_seconds);
              ("ROLE_ARN", role_arn sr);
              ("KMS_KEY_ARN", kms_key_arn);
              ("STACK_NAME", stack_name);
              ("LOG_LEVEL", "INFO")].*1))
    by (apply (bool_decide_unpack _); vm_compute; reflexivity).
  split; [apply dict_literal_lookup; [exact Hkeys | right; left] |].
  split; [apply dict_literal_lookup; [exact Hkeys | do 3 right; left] |].
  split; [apply dict_literal_lookup; [exact Hkeys | do 4 right; left] |].
  split; [do 3 right; left |]. split; [do 2 right; left |].
  repeat split.
Qed.

(** X11. When [batch_transform] is given the layer [sagemaker_layer]
    builds, that layer is the one layer of the function, the function's
    runtime is one the layer is compatible with, and layer and function
    code are different objects of the same bucket. *)
Theorem batch_transform_layer_compatible
    (id : string) (blueprint_bucket assets_bucket : Bucket)
    (model_name inference_instance batch_input_bucket batch_inference_data
     batch_job_output_location kms_key_arn : string) :
  exists fn,
    batch_transform batch_transform_policy logs_statements
      id blueprint_bucket assets_bucket model_name inference_instance
      batch_input_bucket batch_inference_data batch_job_output_location
      kms_key_arn (sagemaker_layer blueprint_bucket) = Ok fn
    /\ layers fn = [sagemaker_layer blueprint_bucket]
    /\ layers fn <> []
    /\ Forall
         (fun l => runtime fn ∈ compatible_runtimes l
                   /\ code_bucket (layer_code l) = code_bucket (code fn)
                   /\ code_key (layer_code l) <> code_key (code fn))
         (layers fn).
Proof.
  unfold batch_transform, s3_policy_read, s3_policy_write.
  rewrite (buildPolicy_ok "storage-read" StorageRead)
    by (reflexivity || apply list_set_cons_ne).
  rewrite (buildPolicy_ok "storage-write" StorageWrite)
    by (reflexivity || discriminate).
  eexists. split; [reflexivity |]. cbn [layers runtime code].
  split; [reflexivity |].
  split; [discriminate |]. repeat constructor. discriminate.
Qed.

(** X12. The property map of the custom resource has exactly the caller's
    keys together with [function_name] and [message]. *)
Theorem custom_resource_properties_dom
    (id lambda_function_arn lambda_function_name : string)
    (blueprint_bucket : Bucket)
    (custom_resource_properties : gmap string PyValue) :
  dom
    (cr_properties
       (create_invoke_lambda_custom_resource id lambda_function_arn
          lambda_function_name blueprint_bucket custom_resource_properties))
  = dom custom_resource_properties ∪ {["function_name"; "message"]}.
Proof.
  unfold create_invoke_lambda_custom_resource. cbn [cr_properties].
  unfold dict_update, dict_literal. cbn [fold_left fst snd].
  rewrite dom_union_L, !dom_insert_L, dom_empty_L. set_solver.
Qed.

(** X13. A property map that went through the factory once comes out
    unchanged when it is handed in again, whatever target function is
    named the second time. *)
Theorem custom_resource_properties_idempotent
    (id id' lambda_function_arn lambda_function_arn' : string)
    (lambda_function_name lambda_function_name' : string)
    (blueprint_bucket blueprint_bucket' : Bucket)
    (custom_resource_properties : gmap string PyValue) :
  let once :=
    cr_properties
      (create_invoke_lambda_custom_resource id lambda_function_arn
         lambda_function_name blueprint_bucket custom_resource_properties) in
  cr_properties
    (create_invoke_lambda_custom_resource id' lambda_function_arn'
       lambda_function_name' blueprint_bucket' once)
  = once.
Proof.
  cbv zeta. unfold create_invoke_lambda_custom_resource. cbn [cr_properties].
  apply map_eq. intros k. rewrite !dict_update_lookup.
  destruct (custom_resource_properties !! k); [reflexivity |].
  unfold dict_literal. cbn [fold_left fst snd].
  destruct (decide (k = "message")) as [-> | Hm].
  { now rewrite !lookup_insert_eq. }
  rewrite !(lookup_insert_ne _ "message") by congruence.
  destruct (decide (k = "function_name")) as [-> | Hf].
  { now rewrite !lookup_insert_eq. }
  now rewrite !lookup_insert_ne, lookup_empty by congruence.
Qed.

(** X14. A caller's map that has both [function_name] and [message],
    and whose values are ones the construct library keeps as they are
    handed in, is the property map of the custom resource, unchanged. *)
Theorem custom_resource_properties_overridden
    (id lambda_function_arn lambda_function_name : string)
    (blueprint_bucket : Bucket)
    (custom_resource_properties : gmap string PyValue) :
  is_Some (custom_resource_properties !! "function_name") ->
  is_Some (custom_resource_properties !! "message") ->
  map_Forall (fun _ v => exact_value v = true) custom_resource_properties ->
  cr_properties
    (create_invoke_lambda_custom_resource id lambda_function_arn
       lambda_function_name blueprint_bucket custom_resource_properties)
  = custom_resource_properties.
Proof.
  intros [f Hf] [m Hm] _.
  unfold create_invoke_lambda_custom_resource. cbn [cr_properties].
  apply map_eq. intros k. rewrite dict_update_lookup.
  destruct (custom_resource_properties !! k) eqn:Hk; [reflexivity |].
  unfold dict_literal. cbn [fold_left fst snd].
  rewrite !lookup_insert_ne by congruence. apply lookup_empty.
Qed.

(** X15. Custom resources built for different ids get different
    resource ids, and the resource id is never the id of the function
    behind it.  When the caller's properties have no [ServiceToken],
    the service token the resource declares is the ARN of the function
    the factory creates, and the two resources declare different
    tokens. *)
Theorem custom_resource_ids_distinct
    (id id' lambda_function_arn lambda_function_arn' : string)
    (lambda_function_name lambda_function_name' : string)
    (blueprint_bucket blueprint_bucket' : Bucket)
    (p p' : gmap string PyValue) :
  id <> id' ->
  p !! "ServiceToken" = None ->
  p' !! "ServiceToken" = None ->
  let r :=
    create_invoke_lambda_custom_resource id lambda_function_arn
      lambda_function_name blueprint_bucket p in
  let r' :=
    create_invoke_lambda_custom_resource id' lambda_function_arn'
      lambda_function_name' blueprint_bucket' p' in
  cr_id r <> cr_id r'
  /\ cr_id r <> id
  /\ resource_properties r !! "ServiceToken" = Some (VStr (cr_service_token r))
  /\ resource_properties r' !! "ServiceToken" = Some (VStr (cr_service_token r'))
  /\ resource_properties r !! "ServiceToken"
     <> resource_properties r' !! "ServiceToken".
Proof.
  intros Hne Hp Hp'. cbv zeta.
  assert (Htoken : forall i a n b (q : gmap string PyValue),
             q !! "ServiceToken" = None ->
             resource_properties (create_invoke_lambda_custom_resource i a n b q)
               !! "ServiceToken"
             = Some (VStr ("${" +:+ i +:+ ".Arn}"))).
  { intros i a n b q Hq. unfold resource_properties.
    rewrite dict_update_lookup.
    unfold create_invoke_lambda_custom_resource.
    cbn [cr_properties cr_service_token]. rewrite dict_update_lookup, Hq.
    unfold dict_literal. cbn [fold_left fst snd].
    rewrite !lookup_insert_ne by discriminate. rewrite lookup_empty.
    apply lookup_insert_eq. }
  split; [| split; [| split; [| split]]].
  - unfold create_invoke_lambda_custom_resource. cbn [cr_id].
    intros H. apply Hne. now apply app_inj_suffix in H.
  - unfold create_invoke_lambda_custom_resource. cbn [cr_id].
    apply app_neq_self.
  - now rewrite Htoken.
  - now rewrite Htoken.
  - rewrite !Htoken by assumption. intros H.
    apply (inj Some), VStr_inj in H. apply Hne.
    apply String.app_inj in H. now apply app_inj_suffix in H.
Qed.

(** X16. A stackset action and a CloudFormation action share their
    variables namespace exactly when they share their action name. *)
Theorem variables_namespace_eq_iff
    (action_name : string) (blueprint_bucket : Bucket) (source_output : Artifact)
    (artifact template_file stage_params_file accound_ids org_ids regions : PyValue)
    (assets_bucket : Bucket) (stack_name : string) (w : Uuid.World)
    (action_name' stack_name' : string) (source_output' : Artifact)
    (template_file' template_parameters_file' : string) (run_order : option Z) :
  lia_variables_namespace
    (stackset_action action_name blueprint_bucket source_output artifact
       template_file stage_params_file accound_ids org_ids regions assets_bucket
       stack_name w).1.2
  = cfn_variables_namespace
      (create_cloudformation_action action_name' stack_name' source_output'
         template_file' template_parameters_file' run_order)
  <-> action_name = action_name'.
Proof.
  unfold create_stackset_action, create_cloudformation_action.
  destruct (Uuid.uuid4 w) as [u w1].
  cbn [fst snd lia_variables_namespace cfn_variables_namespace].
  split; [apply app_inj_suffix | now intros ->].
Qed.

End FactoryExtras.

Lemma stackset_construct_ids_distinct_witness :
  let r :=
    create_stackset_action Sample.cloudformation_stackset_policy
      Sample.cloudformation_stackset_instances_policy Sample.logs_statements
      "deploy-dev" Sample.blueprints Sample.source (VStr "SourceArtifact")
      (VStr "template.yaml") (VStr "dev-params.json") (VList ["111111111111"])
      (VList []) (VList ["us-east-1"]) Sample.assets "model-monitor"
      Sample.world in
  let r' :=
    create_stackset_action Sample.cloudformation_stackset_policy
      Sample.cloudformation_stackset_instances_policy Sample.logs_statements
      "deploy-prod" Sample.blueprints Sample.source (VStr "SourceArtifact")
      (VStr "template.yaml") (VStr "prod-params.json") (VList ["222222222222"])
      (VList []) (VList ["us-east-1"]) Sample.assets "model-monitor"
      Sample.world in
  role_id (role (lia_lambda r.1.2)) <> role_id (role (lia_lambda r'.1.2))
  /\ function_id (lia_lambda r.1.2) <> function_id (lia_lambda r'.1.2)
  /\ lia_variables_namespace r.1.2 <> lia_variables_namespace r'.1.2
  /\ r.1.1 <> r'.1.1.
Proof.
  apply (stackset_construct_ids_distinct Sample.cloudformation_stackset_policy
           Sample.cloudformation_stackset_instances_policy Sample.logs_statements
           "deploy-dev" "deploy-prod").
  discriminate.
Defined.

Lemma custom_resource_properties_overridden_witness :
  cr_properties
    (create_invoke_lambda_custom_resource "InvokeOrchestrator"
       "arn:aws:lambda:us-east-1:111111111111:function:orchestrator"
       "orchestrator" Sample.blueprints
       (dict_literal
          [("function_name", VStr "other"); ("message", VStr "hello");
           ("Resource", VStr "InvokeLambda")]))
  = dict_literal
      [("function_name", VStr "other"); ("message", VStr "hello");
       ("Resource", VStr "InvokeLambda")].
Proof.
  apply custom_resource_properties_overridden.
  - exists (VStr "other"). vm_compute. reflexivity.
  - exists (VStr "hello"). vm_compute. reflexivity.
  - unfold dict_literal. cbn [fold_left fst snd].
    repeat apply map_Forall_insert_2; try reflexivity. apply map_Forall_empty.
Defined.

Lemma custom_resource_ids_distinct_witness :
  let r :=
    create_invoke_lambda_custom_resource "InvokeA" "arn:a" "a"
      Sample.blueprints ∅ in
  let r' :=
    create_invoke_lambda_custom_resource "InvokeB" "arn:b" "b"
      Sample.blueprints ∅ in
  cr_id r <> cr_id r'
  /\ cr_id r <> "InvokeA"
  /\ resource_properties r !! "ServiceToken" = Some (VStr (cr_service_token r))
  /\ resource_properties r' !! "ServiceToken" = Some (VStr (cr_service_token r'))
  /\ resource_properties r !! "ServiceToken"
     <> resource_properties r' !! "ServiceToken".
Proof.
  apply (custom_resource_ids_distinct "InvokeA" "InvokeB").
  - discriminate.
  - reflexivity.
  - reflexivity.
Defined.
